(** * Larini quote renderer: a shallow embedding of [app.py]

    The development follows the layout core of [app.py]: the geometry
    arithmetic of [generate_pdf_bytes], the style registry [build_styles],
    the content assembler [build_story] and the page templates handed to the
    document builder; then the supplier file parser [parse_supplier_file]
    and the [/generate] endpoint around them.

    Conventions of the embedding.
    - Python [int] values (pixel sizes) are [Z].
    - Python [float] values (points on the page) are exact rationals [Q]:
      binary64 rounding is not part of the model.  Equality of computed
      lengths is therefore [Qeq] ([==]).
    - A Python exception is a [Raise] in the error monad [result].
    - The file system the renderer reads from is a finite map from path
      names to files.
    - A quote record is a finite map from field names to strings. *)

From Stdlib Require Import ZArith QArith Lqa String Ascii List Bool Lia.
From stdpp Require Import base option gmap strings.
Import ListNotations.

Open Scope Q_scope.

(** ** Exceptions and the error monad *)

Inductive exn : Type :=
| ZeroDivisionError
| OSError (path : string)
| IndexError
| ValueError (name : string)
| LayoutError.

Inductive result (A : Type) : Type :=
| Ok (a : A)
| Raise (e : exn).
Arguments Ok {A} a.
Arguments Raise {A} e.

#[global] Instance result_ret : MRet result := fun A a => Ok a.
#[global] Instance result_bind : MBind result := fun A B k r =>
  match r with
  | Ok a => k a
  | Raise e => Raise e
  end.

Definition raises {A : Type} (r : result A) : bool :=
  match r with
  | Ok _ => false
  | Raise _ => true
  end.

(** ** Python arithmetic on numbers *)

(** [a > b] on numbers. *)
Definition py_gt (a b : Q) : bool :=
  match a ?= b with
  | Gt => true
  | _ => false
  end.

(** [max(a, b)]: the first argument is kept unless the second is strictly
    greater. *)
Definition py_max (a b : Q) : Q :=
  if py_gt b a then b else a.

(** [a / b] on floats: raises [ZeroDivisionError] on a zero divisor. *)
Definition py_truediv (a b : Q) : result Q :=
  if Qeq_bool b 0 then Raise ZeroDivisionError else Ok (a / b).

(** ** Constants *)

(** [reportlab.lib.units]: [inch = 72.0], [cm = inch/2.54], [mm = cm*0.1];
    [reportlab.lib.pagesizes]: [A4 = (210*mm, 297*mm)]. *)
Definition inch : Q := 72.
Definition cm : Q := inch / 2.54.
Definition mm : Q := cm * 0.1.
Definition A4 : Q * Q := (210 * mm, 297 * mm).

Definition MARGIN_PT : Q := 42.52.
Definition BOTTOM_OFFSET_PT : Q := 0.5 * cm.
Definition RESERVED_GAP_ABOVE_FOOTER_PT : Q := 10.
Definition VEHICLE_TOP_BOTTOM_GAP_PT : Q := 28.35.
Definition MAX_VEHICLE_RATIO : Q := 0.30.

(** ** Files *)

(** What the renderer can observe of a file: whether it exists, and, for a
    raster image, its size in pixels. *)
Inductive file : Type :=
| RasterImage (wpx hpx : Z)
| OtherFile.

Abbreviation filesystem := (gmap string file).

(** [Path.exists()]. *)
Definition path_exists (fs : filesystem) (path : string) : bool :=
  match fs !! path with
  | Some _ => true
  | None => false
  end.

(** [read_image_size(path)]: [ImageReader(str(path)).getSize()].  Opening a
    missing file, or one that is not an image, raises. *)
Definition read_image_size (fs : filesystem) (path : string) : result (Z * Z) :=
  match fs !! path with
  | Some (RasterImage wpx hpx) => Ok (wpx, hpx)
  | _ => Raise (OSError path)
  end.

(** ** Geometry calculator *)

Definition scaled_height_for_full_width (wpx hpx : Z) (target_wpt : Q) : result Q :=
  if (wpx <=? 0)%Z || (hpx <=? 0)%Z then Ok 0
  else q ← py_truediv target_wpt (inject_Z wpx);
       Ok (inject_Z hpx * q).

Definition calc_footer_height (fs : filesystem) (page_width_pt : Q) (footer_path : string)
  : result Q :=
  '(w, h) ← read_image_size fs footer_path;
  scaled_height_for_full_width w h page_width_pt.

Definition calc_header_height (fs : filesystem) (usable_width_pt : Q) (header_path : string)
  : result Q :=
  '(w, h) ← read_image_size fs header_path;
  scaled_height_for_full_width w h usable_width_pt.

(** The lengths [generate_pdf_bytes] derives before it builds the document:
    its assignments from [page_width, page_height = A4] to [h_later]. *)
Record PageGeometry : Type := {
  page_width : Q;
  page_height : Q;
  footer_h : Q;
  bottom_reserved : Q;
  usable_width : Q;
  header_h : Q;
  first_top : Q;
  later_top : Q;
  h_first : Q;
  h_later : Q
}.

(** Those assignments, given the two scaled heights. *)
Definition usable_geometry (header_h footer_h : Q) : PageGeometry :=
  let '(page_width, page_height) := A4 in
  let bottom_reserved := BOTTOM_OFFSET_PT + footer_h + RESERVED_GAP_ABOVE_FOOTER_PT in
  let usable_width := page_width - 2 * MARGIN_PT in
  let first_top := page_height - MARGIN_PT - header_h in
  let later_top := page_height - MARGIN_PT in
  let h_first := py_max (first_top - bottom_reserved) 100 in
  let h_later := py_max (later_top - bottom_reserved) 100 in
  {| page_width := page_width; page_height := page_height;
     footer_h := footer_h; bottom_reserved := bottom_reserved;
     usable_width := usable_width; header_h := header_h;
     first_top := first_top; later_top := later_top;
     h_first := h_first; h_later := h_later |}.

(** The head of [generate_pdf_bytes]: the footer image is measured first,
    then the header image. *)
Definition page_geometry (fs : filesystem) (header_path footer_path : string)
  : result PageGeometry :=
  let '(page_width, page_height) := A4 in
  footer_h ← calc_footer_height fs page_width footer_path;
  let usable_width := page_width - 2 * MARGIN_PT in
  header_h ← calc_header_height fs usable_width header_path;
  Ok (usable_geometry header_h footer_h).

(** ** Strings and records *)

(** [str.lower()], on the ASCII letters. *)
Definition lower_ascii (c : ascii) : ascii :=
  let n := nat_of_ascii c in
  if (65 <=? n)%nat && (n <=? 90)%nat then ascii_of_nat (n + 32) else c.

Fixpoint py_lower (s : string) : string :=
  match s with
  | EmptyString => EmptyString
  | String c s' => String (lower_ascii c) (py_lower s')
  end.

(** [s.startswith(p)]. *)
Definition startswith (s p : string) : bool := String.prefix p s.

(** Truth value of a string: the empty string is false. *)
Definition py_bool (s : string) : bool :=
  match s with
  | EmptyString => false
  | String _ _ => true
  end.

(** [str.isspace()] on one ASCII character. *)
Definition is_space (c : ascii) : bool :=
  let n := nat_of_ascii c in
  ((9 <=? n)%nat && (n <=? 13)%nat) || ((28 <=? n)%nat && (n <=? 32)%nat).

Fixpoint py_lstrip (s : string) : string :=
  match s with
  | EmptyString => EmptyString
  | String c s' => if is_space c then py_lstrip s' else s
  end.

Fixpoint py_rstrip (s : string) : string :=
  match s with
  | EmptyString => EmptyString
  | String c s' =>
      match py_rstrip s' with
      | EmptyString => if is_space c then EmptyString else String c EmptyString
      | r => String c r
      end
  end.

(** [str.strip()]. *)
Definition py_strip (s : string) : string := py_rstrip (py_lstrip s).

(** A quote record: field name to text.  The record may be partial. *)
Abbreviation QuoteRecord := (gmap string string).

(** [data.get(key, default)]. *)
Definition dict_get (data : QuoteRecord) (key default : string) : string :=
  match data !! key with
  | Some v => v
  | None => default
  end.

(** The field names the renderer reads. *)
Definition FIELDS : list string :=
  ["cliente_nome"; "piva_cf"; "sede"; "referente"; "marca_modello"; "versione";
   "motore"; "neopatentati"; "consegna"; "durata"; "km_annui"; "anticipo"; "canone"].

(** ** Style registry *)

Record Color : Type := { red : Q; green : Q; blue : Q }.

Definition LARINI_RED : Color :=
  {| red := 193 / 255.0; green := 18 / 255.0; blue := 31 / 255.0 |}.

(** [reportlab.lib.colors.black]. *)
Definition black : Color := {| red := 0; green := 0; blue := 0 |}.

(** [reportlab.lib.enums]. *)
Definition TA_LEFT : Z := 0.
Definition TA_CENTER : Z := 1.

Record ParagraphStyle : Type := {
  style_name : string;
  fontName : string;
  fontSize : Q;
  leading : Q;
  alignment : Z;
  textColor : Color;
  spaceBefore : Q;
  spaceAfter : Q
}.

(** [getSampleStyleSheet()["Normal"]], with the attributes [build_styles]
    reads or overwrites. *)
Definition sample_Normal : ParagraphStyle :=
  {| style_name := "Normal"; fontName := "Helvetica"; fontSize := 10; leading := 12;
     alignment := TA_LEFT; textColor := black; spaceBefore := 0; spaceAfter := 0 |}.

(** The dictionary [build_styles] returns has exactly these four keys. *)
Record StyleSet : Type := {
  base : ParagraphStyle;
  title : ParagraphStyle;
  price : ParagraphStyle;
  italic : ParagraphStyle
}.

Definition build_styles : StyleSet :=
  let base :=
    {| style_name := style_name sample_Normal; fontName := "Helvetica"; fontSize := 11;
       leading := 14; alignment := alignment sample_Normal;
       textColor := textColor sample_Normal; spaceBefore := spaceBefore sample_Normal;
       spaceAfter := 6 |} in
  let title :=
    {| style_name := "TitleBold"; fontName := "Helvetica-Bold"; fontSize := 11;
       leading := 14; alignment := alignment base; textColor := textColor base;
       spaceBefore := 8; spaceAfter := 6 |} in
  let price :=
    {| style_name := "Price"; fontName := "Helvetica-Bold"; fontSize := 24;
       leading := 28; alignment := TA_CENTER; textColor := LARINI_RED;
       spaceBefore := 8; spaceAfter := 8 |} in
  let italic :=
    {| style_name := "ItalicNote"; fontName := "Helvetica-Oblique"; fontSize := 11;
       leading := 14; alignment := TA_CENTER; textColor := textColor base;
       spaceBefore := 2; spaceAfter := 8 |} in
  {| base := base; title := title; price := price; italic := italic |}.

(** ** Content blocks *)

Inductive Flowable : Type :=
| Paragraph (text : string) (style : ParagraphStyle)
| Spacer (width height : Q)
| Image (filename : string) (hAlign : string) (drawWidth drawHeight : Q).

(** [Image(str(path))]: the draw size is the pixel size of the file, read when
    the size is first asked for; a file that is not an image raises then. *)
Definition Image_size (fs : filesystem) (path : string) : result (Q * Q) :=
  '(wpx, hpx) ← read_image_size fs path;
  Ok (inject_Z wpx, inject_Z hpx).

(** [min(a, b)]: the first argument is kept unless the second is strictly
    smaller. *)
Definition py_min (a b : Q) : Q :=
  if py_gt a b then b else a.

(** Modelled from the spec: [Image._restrictSize(aW, aH)] belongs to the
    layout library and is not part of [app.py].  The spec has the photo
    "bounded to a fixed absolute maximum width and to [MAX_VEHICLE_RATIO] of
    [firstPageUsableHeight], preserving aspect ratio": an image within both
    bounds keeps its size, a larger one has both sides multiplied by the
    smaller of the two ratios bound/size. *)
Definition _restrictSize (drawWidth drawHeight aW aH : Q) : result (Q * Q) :=
  if py_gt drawWidth aW || py_gt drawHeight aH then
    fw ← py_truediv aW drawWidth;
    fh ← py_truediv aH drawHeight;
    let factor := py_min fw fh in
    Ok (drawWidth * factor, drawHeight * factor)
  else Ok (drawWidth, drawHeight).

(** ** Content assembler *)

Definition SERVIZI_INCLUSI : list string :=
  ["RCA"; "Kasko / Danni / Furto & Incendio"; "Manutenzione ordinaria e straordinaria";
   "Pneumatici (premium o equivalenti)"; "Assistenza stradale 24h";
   "Gestione sinistri e contravvenzioni"; "Veicolo sostitutivo (se previsto)";
   "Immatricolazione e consegna"].

(** In the source the image is appended to the story and then resized in
    place; the story holds that same object, so it is the resized image that
    is rendered.  Here the image is resized first and then appended. *)
Definition build_story (fs : filesystem) (data : QuoteRecord)
    (vehicle_photo_path : option string) (styles : StyleSet)
    (first_page_usable_height : Q) : result (list Flowable) :=
  let story := [] in
  story ←
    match vehicle_photo_path with
    | Some path =>
        if path_exists fs path then
          '(w, h) ← Image_size fs path;
          '(w, h) ← _restrictSize w h (10 * cm) (MAX_VEHICLE_RATIO * first_page_usable_height);
          Ok (story ++ [Spacer 1 VEHICLE_TOP_BOTTOM_GAP_PT; Image path "CENTER" w h;
                        Spacer 1 VEHICLE_TOP_BOTTOM_GAP_PT])
        else Ok story
    | None => Ok story
    end;
  let story := story ++ [
    Paragraph "DATI CLIENTE" (title styles);
    Paragraph ("Ragione sociale / Nome: " +:+ dict_get data "cliente_nome" "N.D.") (base styles);
    Paragraph ("P.IVA / CF: " +:+ dict_get data "piva_cf" "N.D.") (base styles);
    Paragraph ("Sede: " +:+ dict_get data "sede" "N.D.") (base styles);
    Paragraph ("Referente: " +:+ dict_get data "referente" "N.D.") (base styles);
    Spacer 1 6;
    Paragraph "VEICOLO PROPOSTO" (title styles);
    Paragraph ("Marca e Modello: " +:+ dict_get data "marca_modello" "N.D.") (base styles);
    Paragraph ("Versione / Allestimento: " +:+ dict_get data "versione" "N.D.") (base styles);
    Paragraph ("Motore / Alimentazione / Cambio / Potenza: "
               +:+ dict_get data "motore" "N.D.") (base styles);
    Paragraph ("Idoneo neopatentati: " +:+ dict_get data "neopatentati" "N.D.") (base styles);
    Paragraph ("Consegna stimata: " +:+ dict_get data "consegna" "N.D.") (base styles);
    Spacer 1 6;
    Paragraph "CONDIZIONI ECONOMICHE" (title styles);
    Paragraph ("Durata: " +:+ dict_get data "durata" "N.D." +:+ " mesi") (base styles);
    Paragraph ("Chilometraggio: " +:+ dict_get data "km_annui" "N.D." +:+ " km/anno")
              (base styles);
    Paragraph ("Anticipo: " +:+ dict_get data "anticipo" "N.D." +:+ " euro") (base styles)
  ] in
  let price_text := dict_get data "canone" "N.D." in
  let story :=
    if py_bool price_text && negb (startswith (py_lower price_text) "n.d") then
      story ++ [Spacer 1 4;
                Paragraph (price_text +:+ " euro + IVA al mese") (price styles);
                Paragraph "Tutto incluso - senza sorprese" (italic styles)]
    else
      story ++ [Paragraph "Canone mensile: N.D." (base styles)] in
  let story := story ++ [Spacer 1 6; Paragraph "SERVIZI INCLUSI" (title styles)] in
  let story :=
    fold_left (fun story s => story ++ [Paragraph ("- " +:+ s) (base styles)])
              SERVIZI_INCLUSI story in
  let story := story ++ [
    Spacer 1 6; Paragraph "DOCUMENTAZIONE RICHIESTA" (title styles);
    Paragraph "SOCIETA (SRL, SAS, SPA, SRLS): documento; cod. fiscale; visura aggiornata a 6 mesi; ultimo bilancio depositato con ricevuta" (base styles);
    Paragraph "DITTA INDIVIDUALE / SNC / LIBERO PROFESSIONISTA: documento; cod. fiscale; visura aggiornata a 6 mesi; modello unico" (base styles);
    Paragraph "PRIVATI: documento; cod. fiscale; CUD anno precedente; ultime 2 buste paga" (base styles);
    Paragraph "PENSIONATI: documento; cod. fiscale; cedolini o estratto conto" (base styles);
    Spacer 1 6; Paragraph "TERMINI E CONDIZIONI" (title styles);
    Paragraph "Offerta soggetta ad approvazione della societa di noleggio; Immagini a scopo illustrativo; Canoni IVA esclusa salvo diversa indicazione; Disponibilita e canone variabili secondo valutazione creditizia" (base styles);
    Spacer 1 6; Paragraph "CONTATTI" (title styles);
    Paragraph "Larini Automotive Rent | Tel. 379 2114207 | noleggio@larini.it | www.larinirent.it" (base styles)
  ] in
  Ok story.

(** ** Page template engine *)

(** What a page callback paints: [canvas.drawImage(image, x, y, width=,
    height=)], in painting order. *)
Inductive canvas_op : Type :=
| drawImage (image : string) (x y width height : Q).

Abbreviation Canvas := (list canvas_op).

(** [Frame(x1, y1, width, height, ...)]. *)
Record Frame : Type := {
  frame_x1 : Q;
  frame_y1 : Q;
  frame_width : Q;
  frame_height : Q
}.

(** [PageTemplate(id=, frames=, onPage=)].  [autoNextPageTemplate] is the
    constructor's optional argument of that name; left out, it is [None]. *)
Record PageTemplate : Type := {
  template_id : string;
  frames : list Frame;
  onPage : Canvas -> result Canvas;
  autoNextPageTemplate : option string
}.

(** One page of the rendered document: the template it was begun with, what
    the template's callback painted, and the blocks placed in the frame. *)
Record Page : Type := {
  page_template : string;
  page_canvas : Canvas;
  page_content : list Flowable
}.

(** The document builder: [BaseDocTemplate.addPageTemplates] followed by
    [BaseDocTemplate.build] of the layout library, as far as page templates
    are concerned.  The document starts on the first template of the list.
    Beginning a page calls the current template's [onPage] and opens its
    frame.  Blocks are placed in story order; a block that does not fit in
    what is left of the frame ends the page.  At the end of a page the
    current template is replaced only when it names a successor in
    [autoNextPageTemplate]; otherwise the next page is begun with the same
    template.  (The library's other way to change template, a
    [NextPageTemplate] block in the story, is not listed here: [build_story]
    never emits one.  The switch to a template named "Later" after the first
    page is what the library's [SimpleDocTemplate] adds on top of this
    builder; [app.py] uses [BaseDocTemplate] itself.)  The height a block
    takes in a frame is measured by the library from fonts and text: it is
    the parameter [wrap]. *)
Section DocTemplate.
Variable wrap : Flowable -> Q.
Variable pageTemplates : list PageTemplate.

Definition find_template (name : string) : option PageTemplate :=
  List.find (fun t => String.eqb (template_id t) name) pageTemplates.

(** [handle_pageEnd]: the template of the page to come. *)
Definition handle_pageEnd (t : PageTemplate) : result PageTemplate :=
  match autoNextPageTemplate t with
  | None => Ok t
  | Some name =>
      match find_template name with
      | Some t' => Ok t'
      | None => Raise (ValueError name)
      end
  end.

(** [handle_pageBegin]: run the callback, open the first frame. *)
Definition handle_pageBegin (t : PageTemplate) : result (Page * Q) :=
  c ← onPage t [];
  match frames t with
  | f :: _ =>
      Ok ({| page_template := template_id t; page_canvas := c; page_content := [] |},
          frame_height f)
  | [] => Raise IndexError
  end.

Definition add_flowable (p : Page) (f : Flowable) : Page :=
  {| page_template := page_template p; page_canvas := page_canvas p;
     page_content := page_content p ++ [f] |}.

Fixpoint handle_flowables (story : list Flowable) (t : PageTemplate)
    (cur : Page) (avail : Q) : result (list Page) :=
  match story with
  | [] => Ok [cur]
  | f :: rest =>
      if Qle_bool (wrap f) avail then
        handle_flowables rest t (add_flowable cur f) (avail - wrap f)
      else
        t' ← handle_pageEnd t;
        '(p, avail') ← handle_pageBegin t';
        if Qle_bool (wrap f) avail' then
          pages ← handle_flowables rest t' (add_flowable p f) (avail' - wrap f);
          Ok (cur :: pages)
        else Raise LayoutError
  end.

Definition build (story : list Flowable) : result (list Page) :=
  match pageTemplates, story with
  | [], _ => Raise IndexError
  | _, [] => Ok []
  | t :: _, _ =>
      '(p, avail) ← handle_pageBegin t;
      handle_flowables story t p avail
  end.
End DocTemplate.

(** ** The renderer *)

Definition draw_footer (fs : filesystem) (c : Canvas) (footer_path : string)
    (page_width page_height : Q) : result Canvas :=
  '(w, h) ← read_image_size fs footer_path;
  th ← scaled_height_for_full_width w h page_width;
  Ok (c ++ [drawImage footer_path 0 BOTTOM_OFFSET_PT page_width th]).

Definition draw_header_first_page (fs : filesystem) (c : Canvas) (header_path : string)
    (margin_left page_width page_height usable_width : Q) : result Canvas :=
  '(w, h) ← read_image_size fs header_path;
  hh ← scaled_height_for_full_width w h usable_width;
  let x := margin_left in
  let y := page_height - hh - MARGIN_PT in
  Ok (c ++ [drawImage header_path x y usable_width hh]).

(** The result stands for the PDF: the pages in order.  Their encoding as
    bytes is the layout library's and is not modelled. *)
Definition generate_pdf_bytes (wrap : Flowable -> Q) (fs : filesystem)
    (data : QuoteRecord) (vehicle_photo : option string)
    (header_path footer_path : string) : result (list Page) :=
  g ← page_geometry fs header_path footer_path;
  let frame_first :=
    {| frame_x1 := MARGIN_PT; frame_y1 := bottom_reserved g;
       frame_width := usable_width g; frame_height := h_first g |} in
  let frame_later :=
    {| frame_x1 := MARGIN_PT; frame_y1 := bottom_reserved g;
       frame_width := usable_width g; frame_height := h_later g |} in
  let on_first_page (c : Canvas) :=
    c ← draw_header_first_page fs c header_path MARGIN_PT (page_width g) (page_height g)
          (usable_width g);
    draw_footer fs c footer_path (page_width g) (page_height g) in
  let on_later_pages (c : Canvas) :=
    draw_footer fs c footer_path (page_width g) (page_height g) in
  let pageTemplates :=
    [ {| template_id := "First"; frames := [frame_first]; onPage := on_first_page;
         autoNextPageTemplate := None |};
      {| template_id := "Later"; frames := [frame_later]; onPage := on_later_pages;
         autoNextPageTemplate := None |} ] in
  let styles := build_styles in
  story ← build_story fs data vehicle_photo styles (h_first g);
  build wrap pageTemplates story.

(** ** The document outline, section by section

    The outline as the specification words it: an optional photo block, the
    client data, the proposed vehicle, the economic terms, the price callout
    or its plain replacement, the included services, the required
    documentation, the terms and conditions, the contacts.  [build_story] is
    compared with it below. *)

Definition outline_photo_block (path : string) (w h : Q) : list Flowable :=
  [ Spacer 1 VEHICLE_TOP_BOTTOM_GAP_PT; Image path "CENTER" w h;
    Spacer 1 VEHICLE_TOP_BOTTOM_GAP_PT ].

Definition outline_client_data (data : QuoteRecord) (styles : StyleSet) : list Flowable :=
  [ Paragraph "DATI CLIENTE" (title styles);
    Paragraph ("Ragione sociale / Nome: " +:+ dict_get data "cliente_nome" "N.D.") (base styles);
    Paragraph ("P.IVA / CF: " +:+ dict_get data "piva_cf" "N.D.") (base styles);
    Paragraph ("Sede: " +:+ dict_get data "sede" "N.D.") (base styles);
    Paragraph ("Referente: " +:+ dict_get data "referente" "N.D.") (base styles) ].

Definition outline_vehicle (data : QuoteRecord) (styles : StyleSet) : list Flowable :=
  [ Spacer 1 6;
    Paragraph "VEICOLO PROPOSTO" (title styles);
    Paragraph ("Marca e Modello: " +:+ dict_get data "marca_modello" "N.D.") (base styles);
    Paragraph ("Versione / Allestimento: " +:+ dict_get data "versione" "N.D.") (base styles);
    Paragraph ("Motore / Alimentazione / Cambio / Potenza: "
               +:+ dict_get data "motore" "N.D.") (base styles);
    Paragraph ("Idoneo neopatentati: " +:+ dict_get data "neopatentati" "N.D.") (base styles);
    Paragraph ("Consegna stimata: " +:+ dict_get data "consegna" "N.D.") (base styles) ].

Definition outline_economic_terms (data : QuoteRecord) (styles : StyleSet)
  : list Flowable :=
  [ Spacer 1 6;
    Paragraph "CONDIZIONI ECONOMICHE" (title styles);
    Paragraph ("Durata: " +:+ dict_get data "durata" "N.D." +:+ " mesi") (base styles);
    Paragraph ("Chilometraggio: " +:+ dict_get data "km_annui" "N.D." +:+ " km/anno")
              (base styles);
    Paragraph ("Anticipo: " +:+ dict_get data "anticipo" "N.D." +:+ " euro") (base styles) ].

Definition outline_price_callout (price_text : string) (styles : StyleSet)
  : list Flowable :=
  [ Spacer 1 4;
    Paragraph (price_text +:+ " euro + IVA al mese") (price styles);
    Paragraph "Tutto incluso - senza sorprese" (italic styles) ].

Definition outline_plain_fee (styles : StyleSet) : list Flowable :=
  [ Paragraph "Canone mensile: N.D." (base styles) ].

Definition outline_services_items (styles : StyleSet) : list Flowable :=
  map (fun s => Paragraph ("- " +:+ s) (base styles)) SERVIZI_INCLUSI.

Definition outline_services (styles : StyleSet) : list Flowable :=
  [ Spacer 1 6; Paragraph "SERVIZI INCLUSI" (title styles) ]
  ++ outline_services_items styles.

Definition outline_documentation_blocks (styles : StyleSet) : list Flowable :=
  [ Paragraph "SOCIETA (SRL, SAS, SPA, SRLS): documento; cod. fiscale; visura aggiornata a 6 mesi; ultimo bilancio depositato con ricevuta" (base styles);
    Paragraph "DITTA INDIVIDUALE / SNC / LIBERO PROFESSIONISTA: documento; cod. fiscale; visura aggiornata a 6 mesi; modello unico" (base styles);
    Paragraph "PRIVATI: documento; cod. fiscale; CUD anno precedente; ultime 2 buste paga" (base styles);
    Paragraph "PENSIONATI: documento; cod. fiscale; cedolini o estratto conto" (base styles) ].

Definition outline_documentation (styles : StyleSet) : list Flowable :=
  [ Spacer 1 6; Paragraph "DOCUMENTAZIONE RICHIESTA" (title styles) ]
  ++ outline_documentation_blocks styles.

Definition outline_terms (styles : StyleSet) : list Flowable :=
  [ Spacer 1 6; Paragraph "TERMINI E CONDIZIONI" (title styles);
    Paragraph "Offerta soggetta ad approvazione della societa di noleggio; Immagini a scopo illustrativo; Canoni IVA esclusa salvo diversa indicazione; Disponibilita e canone variabili secondo valutazione creditizia" (base styles) ].

Definition outline_contacts (styles : StyleSet) : list Flowable :=
  [ Spacer 1 6; Paragraph "CONTATTI" (title styles);
    Paragraph "Larini Automotive Rent | Tel. 379 2114207 | noleggio@larini.it | www.larinirent.it" (base styles) ].

(** The one content-dependent choice of the outline. *)
Definition outline_price_block (shows : bool) (price_text : string) (styles : StyleSet)
  : list Flowable :=
  if shows then outline_price_callout price_text styles else outline_plain_fee styles.

(** The story around the two variable blocks. *)
Definition outline (photo_block price_block : list Flowable) (data : QuoteRecord)
    (styles : StyleSet) : list Flowable :=
  photo_block ++ outline_client_data data styles ++ outline_vehicle data styles
  ++ outline_economic_terms data styles ++ price_block ++ outline_services styles
  ++ outline_documentation styles ++ outline_terms styles ++ outline_contacts styles.

(** The test [build_story] makes on the monthly fee. *)
Definition shows_price (data : QuoteRecord) : bool :=
  let price_text := dict_get data "canone" "N.D." in
  py_bool price_text && negb (startswith (py_lower price_text) "n.d").

(** The same decision as the specification words it: the field is present
    and its trimmed value, case-insensitively, does not start with the
    sentinel "N.D.". *)
Definition spec_shows_price (data : QuoteRecord) : bool :=
  match data !! "canone" with
  | Some v => negb (startswith (py_lower (py_strip v)) (py_lower "N.D."))
  | None => false
  end.

(** For each field, the line that stands for it when the field is absent. *)
Definition ABSENT_FIELD_LINES : list (string * string) :=
  [ ("cliente_nome", "Ragione sociale / Nome: N.D.");
    ("piva_cf", "P.IVA / CF: N.D.");
    ("sede", "Sede: N.D.");
    ("referente", "Referente: N.D.");
    ("marca_modello", "Marca e Modello: N.D.");
    ("versione", "Versione / Allestimento: N.D.");
    ("motore", "Motore / Alimentazione / Cambio / Potenza: N.D.");
    ("neopatentati", "Idoneo neopatentati: N.D.");
    ("consegna", "Consegna stimata: N.D.");
    ("durata", "Durata: N.D. mesi");
    ("km_annui", "Chilometraggio: N.D. km/anno");
    ("anticipo", "Anticipo: N.D. euro");
    ("canone", "Canone mensile: N.D.") ].


(** ** Observations on a story and on a rendered document *)

Definition is_image (f : Flowable) : bool :=
  match f with
  | Image _ _ _ _ => true
  | _ => false
  end.

Definition count_images (story : list Flowable) : nat :=
  length (List.filter is_image story).

(** A paragraph set in the price style. *)
Definition is_price_line (f : Flowable) : bool :=
  match f with
  | Paragraph _ st => String.eqb (style_name st) "Price"
  | _ => false
  end.

Definition emits_price_line (story : list Flowable) : bool :=
  existsb is_price_line story.

(** The fixed line that replaces the price, set in the body style. *)
Definition is_plain_fee_line (f : Flowable) : bool :=
  match f with
  | Paragraph text st =>
      String.eqb (style_name st) "Normal" && String.eqb text "Canone mensile: N.D."
  | _ => false
  end.

Definition emits_plain_fee_line (story : list Flowable) : bool :=
  existsb is_plain_fee_line story.

(** A header is painted by [draw_header_first_page] at the left margin, a
    footer by [draw_footer] at the left edge of the page. *)
Definition is_header_draw (header_path : string) (op : canvas_op) : bool :=
  match op with
  | drawImage image x _ _ _ => String.eqb image header_path && Qeq_bool x MARGIN_PT
  end.

Definition is_footer_draw (footer_path : string) (op : canvas_op) : bool :=
  match op with
  | drawImage image x _ _ _ => String.eqb image footer_path && Qeq_bool x 0
  end.

Definition header_draws (header_path : string) (c : Canvas) : nat :=
  length (List.filter (is_header_draw header_path) c).

Definition footer_draws (footer_path : string) (c : Canvas) : nat :=
  length (List.filter (is_footer_draw footer_path) c).

(** A page begun with template [t], whose callback painted [c]. *)
Definition begun_with (t : PageTemplate) (c : Canvas) (p : Page) : Prop :=
  page_template p = template_id t /\ page_canvas p = c.

(** Header paintings over the whole document. *)
Definition total_header_draws (header_path : string) (pages : list Page) : nat :=
  list_sum (map (fun p => header_draws header_path (page_canvas p)) pages).

(** ** Sample inputs *)

(** Brand art of ordinary proportions: a 2000 x 300 header strip and a
    2000 x 200 footer strip, and a 4000 x 3000 vehicle photo. *)
Definition sample_assets : filesystem :=
  <["assets/Heater.jpg" := RasterImage 2000 300]>
  (<["assets/footer.jpg" := RasterImage 2000 200]>
  (<["tmp/car.jpg" := RasterImage 4000 3000]> ∅)).

(** Oversized brand art: a header ten times as tall as wide and a footer
    twice as tall as wide. *)
Definition oversized_assets : filesystem :=
  <["assets/Heater.jpg" := RasterImage 100 1000]>
  (<["assets/footer.jpg" := RasterImage 100 200]> ∅).

(** The ordinary brand art with a photo upload that is not an image: a file
    is there under the photo's path, and the image reader cannot open it. *)
Definition unreadable_photo_assets : filesystem :=
  <["tmp/car.jpg" := OtherFile]> sample_assets.

(** The record of the specification's first scenario. *)
Definition sample_record : QuoteRecord :=
  {[ "marca_modello" := "Model X"; "canone" := "450" ]}.

(** A measure for the examples: every paragraph takes one line with the
    spacing of its style, a spacer or an image its own height. *)
Definition sample_wrap (f : Flowable) : Q :=
  match f with
  | Paragraph _ st => spaceBefore st + leading st + spaceAfter st
  | Spacer _ h => h
  | Image _ _ _ h => h
  end.

(** The first scenario rendered with the ordinary brand art and no photo. *)
Definition sample_render : result (list Page) :=
  generate_pdf_bytes sample_wrap sample_assets sample_record None
    "assets/Heater.jpg" "assets/footer.jpg".

(** ** Further tables and observations *)

(** For each field that is substituted into a line, the text before and
    after its value. *)
Definition FIELD_LABELS : list (string * (string * string)) :=
  [ ("cliente_nome", ("Ragione sociale / Nome: ", ""));
    ("piva_cf", ("P.IVA / CF: ", ""));
    ("sede", ("Sede: ", ""));
    ("referente", ("Referente: ", ""));
    ("marca_modello", ("Marca e Modello: ", ""));
    ("versione", ("Versione / Allestimento: ", ""));
    ("motore", ("Motore / Alimentazione / Cambio / Potenza: ", ""));
    ("neopatentati", ("Idoneo neopatentati: ", ""));
    ("consegna", ("Consegna stimata: ", ""));
    ("durata", ("Durata: ", " mesi"));
    ("km_annui", ("Chilometraggio: ", " km/anno"));
    ("anticipo", ("Anticipo: ", " euro")) ].

(** ** Supplier file parser: text clean-up *)

(** A Python [str] is kept as its UTF-8 bytes: a character outside ASCII is
    a run of bytes of value 128 or more, and every such byte belongs to one. *)
Definition non_ascii (c : ascii) : bool := (128 <=? nat_of_ascii c)%nat.

Definition starts_with (p : ascii -> bool) (s : string) : bool :=
  match s with
  | EmptyString => false
  | String c _ => p c
  end.

(** [re.sub(class+, ' ', text)] for a class of single characters: every
    maximal run of characters of the class becomes one blank. *)
Fixpoint sub_runs (p : ascii -> bool) (s : string) : string :=
  match s with
  | EmptyString => EmptyString
  | String c s' =>
      if p c then
        if starts_with p s' then sub_runs p s' else String " " (sub_runs p s')
      else String c (sub_runs p s')
  end.

(** The two substitutions and the strip [parse_supplier_file] applies to the
    text it gathered. *)
Definition clean_text (text : string) : string :=
  let text := sub_runs non_ascii text in
  py_strip (sub_runs is_space text).

(** ** Supplier file parser: patterns *)

(** The regular expressions of [pats], in the constructs they use.  A
    literal character and a class are matched ignoring case
    ([re.IGNORECASE]); quantifiers are greedy; alternatives are tried from
    left to right. *)
Inductive regex : Type :=
| Lit (c : ascii)
| Class (p : ascii -> bool)
| Seq (r1 r2 : regex)
| Alt (r1 r2 : regex)
| Opt (r : regex)
| Star (r : regex).

(** A literal word. *)
Fixpoint Str (s : string) : regex :=
  match s with
  | EmptyString => Opt (Class (fun _ => false))
  | String c EmptyString => Lit c
  | String c s' => Seq (Lit c) (Str s')
  end.

(** [r+] and [r{1,2}]. *)
Definition Plus (r : regex) : regex := Seq r (Star r).
Definition OneOrTwo (r : regex) : regex := Seq r (Opt r).

Section Matcher.
Context {A : Type}.

(** Greedy iteration: as many rounds of [m] as succeed, at most [n], each
    consuming at least one character; on failure further on, one round less. *)
Fixpoint star_loop (m : string -> (string -> option A) -> option A) (n : nat)
    (s : string) (k : string -> option A) : option A :=
  match n with
  | O => k s
  | S n' =>
      match m s (fun s' =>
                   if (String.length s' <? String.length s)%nat
                   then star_loop m n' s' k else None) with
      | Some a => Some a
      | None => k s
      end
  end.

(** Backtracking match of [r] at the head of [s]; [k] is what must still
    match on the rest. *)
Fixpoint rmatch (r : regex) (s : string) (k : string -> option A) : option A :=
  match r with
  | Lit c =>
      match s with
      | String c' s' =>
          if Ascii.eqb (lower_ascii c') (lower_ascii c) then k s' else None
      | EmptyString => None
      end
  | Class p =>
      match s with
      | String c' s' => if p c' then k s' else None
      | EmptyString => None
      end
  | Seq r1 r2 => rmatch r1 s (fun s1 => rmatch r2 s1 k)
  | Alt r1 r2 =>
      match rmatch r1 s k with
      | Some a => Some a
      | None => rmatch r2 s k
      end
  | Opt r1 =>
      match rmatch r1 s k with
      | Some a => Some a
      | None => k s
      end
  | Star r1 => star_loop (rmatch r1) (String.length s) s k
  end.
End Matcher.

(** The first [n] characters of [s]. *)
Fixpoint take_string (n : nat) (s : string) : string :=
  match n, s with
  | S n', String c s' => String c (take_string n' s')
  | _, _ => EmptyString
  end.

(** A pattern of [pats]: what comes before the group, and the group, which
    ends the pattern. *)
Record pattern : Type := {
  before_group : regex;
  group : regex
}.

(** [re.match]: the pattern at the head of [s]; the result is [group(1)]. *)
Definition re_match (pat : pattern) (s : string) : option string :=
  rmatch (before_group pat) s (fun s1 =>
    rmatch (group pat) s1 (fun s2 =>
      Some (take_string (String.length s1 - String.length s2) s1))).

(** [re.search]: the leftmost position where the pattern matches. *)
Fixpoint re_search (pat : pattern) (s : string) : option string :=
  match re_match pat s with
  | Some g => Some g
  | None =>
      match s with
      | EmptyString => None
      | String _ s' => re_search pat s'
      end
  end.

(** Character classes of the patterns. *)
Definition is_digit (c : ascii) : bool :=
  let n := nat_of_ascii c in (48 <=? n)%nat && (n <=? 57)%nat.

Definition is_letter (c : ascii) : bool :=
  let n := nat_of_ascii c in
  ((65 <=? n)%nat && (n <=? 90)%nat) || ((97 <=? n)%nat && (n <=? 122)%nat).

Definition one_of (chars : string) (c : ascii) : bool :=
  existsb (Ascii.eqb c) (list_ascii_of_string chars).

(** [[A-Za-z0-9]]. *)
Definition alnum (c : ascii) : bool := is_letter c || is_digit c.
(** [[A-Za-z0-9\s\.\,\-]]. *)
Definition free_text (c : ascii) : bool := alnum c || is_space c || one_of ".,-" c.
(** [[A-Za-z0-9\s\.\,\-\/]]. *)
Definition free_text_slash (c : ascii) : bool := free_text c || one_of "/" c.
(** [[0-9\.\,]]. *)
Definition amount (c : ascii) : bool := is_digit c || one_of ".," c.

(** [label\s*[:\-]\s*(group)]. *)
Definition labelled (label group : regex) : pattern :=
  {| before_group :=
       Seq label (Seq (Star (Class is_space))
                      (Seq (Class (one_of ":-")) (Star (Class is_space))));
     group := group |}.

Definition any_of (labels : list regex) : regex :=
  match labels with
  | [] => Opt (Class (fun _ => false))
  | r :: rs => fold_left Alt rs r
  end.

(** [pats], in the order of the dictionary. *)
Definition pats : list (string * pattern) :=
  [ ("cliente_nome",
     labelled (any_of [Str "Cliente"; Str "Ragione sociale"; Str "Nome"])
              (Plus (Class free_text)));
    ("piva_cf",
     labelled (any_of [Seq (Lit "P") (Seq (Opt (Lit "."))
                            (Seq (Star (Class is_space)) (Str "IVA")));
                       Str "CF"; Str "Codice fiscale"])
              (Plus (Class alnum)));
    ("sede",
     labelled (any_of [Str "Sede"; Str "Indirizzo"]) (Plus (Class free_text)));
    ("referente",
     labelled (any_of [Str "Referente"; Str "Contatto"]) (Plus (Class free_text)));
    ("marca_modello",
     labelled (any_of [Seq (Str "Marca")
                         (Seq (Star (Class is_space))
                            (Seq (Opt (Lit "/"))
                               (Seq (Star (Class is_space)) (Str "Modello"))));
                       Str "Veicolo"; Str "Modello"])
              (Plus (Class free_text)));
    ("versione",
     labelled (any_of [Str "Versione"; Str "Allestimento"]) (Plus (Class free_text)));
    ("motore",
     labelled (any_of [Str "Motore"; Str "Alimentazione"; Str "Cambio"; Str "Potenza"])
              (Plus (Class free_text_slash)));
    ("neopatentati",
     labelled (any_of [Str "Neopatentati"; Str "Idoneo neopatentati"])
              (any_of [Str "Si"; Str "No"; Str "N.D."]));
    ("consegna",
     labelled (any_of [Str "Consegna"; Str "Consegna stimata"; Str "Lead time"])
              (Plus (Class free_text_slash)));
    ("durata", labelled (Str "Durata") (OneOrTwo (Class is_digit)));
    ("km_annui",
     labelled (any_of [Str "Km"; Str "Chilometraggio"]) (Plus (Class amount)));
    ("anticipo", labelled (Str "Anticipo") (Plus (Class amount)));
    ("canone",
     labelled (any_of [Str "Canone"; Str "Canone mensile"]) (Plus (Class amount))) ].

(** The tail of [parse_supplier_file]: clean the text, then try every pattern
    on it; a pattern that is found stores its group, stripped. *)
Definition parse_supplier_text (text : string) : QuoteRecord :=
  let text := clean_text text in
  fold_left
    (fun (data : QuoteRecord) '(k, pat) =>
       match re_search pat text with
       | Some g => <[ k := py_strip g ]> data
       | None => data
       end)
    pats ∅.

(** ** Paths *)

(** What follows the last occurrence of [c] in [s], if [c] occurs. *)
Fixpoint after_last (c : ascii) (s : string) : option string :=
  match s with
  | EmptyString => None
  | String c' s' =>
      match after_last c s' with
      | Some r => Some r
      | None => if Ascii.eqb c' c then Some s' else None
      end
  end.

(** [Path.name]: the last component. *)
Definition path_name (path : string) : string :=
  match after_last "/" path with
  | Some name => name
  | None => path
  end.

(** [Path.suffix]: the name from its last dot on, when that dot is neither
    the first nor the last character of the name (pathlib up to Python 3.12;
    later versions differ on names that begin or end with a dot only). *)
Definition path_suffix (path : string) : string :=
  let name := path_name path in
  match after_last "." name with
  | Some ext =>
      if (1 <? String.length name - String.length ext)%nat
         && (0 <? String.length ext)%nat
      then "." +:+ ext else ""
  | None => ""
  end.

(** [directory / name] for a directory without trailing slash: an absolute
    [name] replaces the directory.  Names are taken as they are: the clean-up
    of empty and dot components that pathlib does is not modelled. *)
Definition path_join (directory name : string) : string :=
  if startswith name "/" then name else directory +:+ "/" +:+ name.

(** ** Supplier file parser: reading *)

Definition LF : string := String (ascii_of_nat 10) EmptyString.

(** What [page.extract_text()] can do: give text, give [None], or raise. *)
Inductive page_text : Type :=
| PageText (text : string)
| NoText
| PageError.

(** [text += "\n" + (page.extract_text() or "")] over the pages, inside the
    [try]: the first page that raises ends the loop, the text gathered so far
    is kept. *)
Fixpoint gather_pages (pages : list page_text) (text : string) : string :=
  match pages with
  | [] => text
  | PageText t :: rest => gather_pages rest (text +:+ LF +:+ t)
  | NoText :: rest => gather_pages rest (text +:+ LF +:+ "")
  | PageError :: _ => text
  end.

(** [text += "\n" + para.text] over the paragraphs. *)
Definition gather_paragraphs (paragraphs : list string) (text : string) : string :=
  fold_left (fun text para => text +:+ LF +:+ para) paragraphs text.

Section SupplierFile.
(** The two optional readers, [None] when their import failed.  Opening a
    file gives its pages (its paragraphs), or raises: [None]. *)
Variable pdfplumber : option (filesystem -> string -> option (list page_text)).
Variable docx : option (filesystem -> string -> option (list string)).

Definition parse_supplier_file (fs : filesystem) (path : string) : QuoteRecord :=
  let text := "" in
  let suffix := py_lower (path_suffix path) in
  let text :=
    match (if String.eqb suffix ".pdf" then pdfplumber else None) with
    | Some pdf_open =>
        match pdf_open fs path with
        | Some pages => gather_pages (firstn 5 pages) text
        | None => text
        end
    | None =>
        match (if String.eqb suffix ".docx" || String.eqb suffix ".doc"
               then docx else None) with
        | Some docx_open =>
            match docx_open fs path with
            | Some paragraphs => gather_paragraphs paragraphs text
            | None => text
            end
        | None => text
        end
    end in
  parse_supplier_text text.
End SupplierFile.

(** ** The [/generate] endpoint *)

(** [data.setdefault(key, value)]. *)
Definition setdefault (data : QuoteRecord) (key value : string) : QuoteRecord :=
  match data !! key with
  | Some _ => data
  | None => <[ key := value ]> data
  end.

(** [defaults], in the order of the dictionary. *)
Definition DEFAULTS : list (string * string) :=
  [ ("cliente_nome", "N.D."); ("piva_cf", "N.D."); ("sede", "N.D.");
    ("referente", "N.D."); ("marca_modello", "N.D."); ("versione", "N.D.");
    ("motore", "N.D."); ("neopatentati", "N.D."); ("consegna", "N.D.");
    ("durata", "N.D."); ("km_annui", "N.D."); ("anticipo", "N.D.");
    ("canone", "N.D.") ].

(** The first value listed for [k]. *)
Fixpoint first_value (k : string) (l : list (string * string)) : option string :=
  match l with
  | [] => None
  | (k', v) :: rest => if decide (k' = k) then Some v else first_value k rest
  end.

(** [for k, v in defaults.items(): data.setdefault(k, v)]. *)
Definition apply_defaults (data : QuoteRecord) : QuoteRecord :=
  fold_left (fun data '(k, v) => setdefault data k v) DEFAULTS data.

(** [for k, v in parsed.items(): data.setdefault(k, v)]. *)
Definition merge_parsed (data parsed : QuoteRecord) : QuoteRecord :=
  map_fold (fun k v data => setdefault data k v) data parsed.

(** [s.replace(" ", "_")]. *)
Fixpoint replace_blanks (s : string) : string :=
  match s with
  | EmptyString => EmptyString
  | String c s' =>
      String (if Ascii.eqb c " " then "_"%char else c) (replace_blanks s')
  end.

(** An uploaded file: its name and what is written to disk. *)
Record UploadFile : Type := {
  filename : string;
  upload : file
}.

(** [f.write(await upload.read())] on [path.open("wb")].  The write is taken
    to succeed: the directory of the path is there and can be written to. *)
Definition write_upload (fs : filesystem) (path : string) (u : UploadFile)
  : filesystem :=
  <[ path := upload u ]> fs.

Inductive http_detail : Type :=
| BrandAssetsMissing
| InvalidDataJson
| PdfGenerationFailed (e : exn).

(** [StreamingResponse(io.BytesIO(pdf), media_type=, headers={"Content-Disposition": ...})]. *)
Record StreamingResponse : Type := {
  body : list Page;
  media_type : string;
  content_disposition : string
}.

Inductive http_result : Type :=
| HTTPException (status_code : Z) (detail : http_detail)
| Response (r : StreamingResponse).

Section Endpoint.
(** [json.loads], restricted to JSON objects of strings; [None] when it
    raises. *)
Variable json_loads : string -> option QuoteRecord.
Variable pdfplumber : option (filesystem -> string -> option (list page_text)).
Variable docx : option (filesystem -> string -> option (list string)).
(** [datetime.utcnow().date().isoformat()]. *)
Variable today : string.
Variable wrap : Flowable -> Q.

(** The record handed to the renderer: the JSON object, then the values
    parsed from the supplier file for the keys still missing, then "N.D." for
    the fields still missing. *)
Definition request_data (json : QuoteRecord) (parsed : option QuoteRecord)
  : QuoteRecord :=
  let data := json in
  let data :=
    match parsed with
    | Some parsed => merge_parsed data parsed
    | None => data
    end in
  apply_defaults data.

(** The name of the download: the one asked for, unless it is missing or
    empty. *)
Definition download_name (output_name : option string) (data : QuoteRecord) : string :=
  let given :=
    match output_name with
    | Some name => py_bool name
    | None => false
    end in
  if negb given then
    let model := replace_blanks (dict_get data "marca_modello" "Modello") in
    "Preventivo_Larini_" +:+ model +:+ "_" +:+ today +:+ ".pdf"
  else
    match output_name with
    | Some name => name
    | None => ""
    end.

(** The endpoint returns the file system it leaves behind and either the
    response or the HTTP error it raises.  Directories are not part of the
    file system of the model: the two [mkdir(exist_ok=True)] calls are taken
    to succeed and leave every file as it is. *)
Definition generate (fs : filesystem) (data_json : option string)
    (vehicle_photo supplier_file header_image footer_image : option UploadFile)
    (output_name : option string) : filesystem * http_result :=
  let default_header := path_join "assets" "Heater.jpg" in
  let default_footer := path_join "assets" "footer.jpg" in
  if negb (path_exists fs default_header) || negb (path_exists fs default_footer) then
    (fs, HTTPException 500 BrandAssetsMissing)
  else
    let json :=
      match data_json with
      | Some text => if py_bool text then json_loads text else Some ∅
      | None => Some ∅
      end in
    match json with
    | None => (fs, HTTPException 400 InvalidDataJson)
    | Some data =>
        let '(fs, parsed) :=
          match supplier_file with
          | Some u =>
              let sp := path_join "tmp" (filename u) in
              let fs := write_upload fs sp u in
              (fs, Some (parse_supplier_file pdfplumber docx fs sp))
          | None => (fs, None)
          end in
        let data := request_data data parsed in
        let '(fs, vpath) :=
          match vehicle_photo with
          | Some u =>
              let vpath := path_join "tmp" (filename u) in
              (write_upload fs vpath u, Some vpath)
          | None => (fs, None)
          end in
        let '(fs, header_path) :=
          match header_image with
          | Some u =>
              let header_path := path_join "tmp" ("header_" +:+ filename u) in
              (write_upload fs header_path u, header_path)
          | None => (fs, default_header)
          end in
        let '(fs, footer_path) :=
          match footer_image with
          | Some u =>
              let footer_path := path_join "tmp" ("footer_" +:+ filename u) in
              (write_upload fs footer_path u, footer_path)
          | None => (fs, default_footer)
          end in
        let output_name := download_name output_name data in
        match generate_pdf_bytes wrap fs data vpath header_path footer_path with
        | Raise e => (fs, HTTPException 500 (PdfGenerationFailed e))
        | Ok pdf =>
            (fs, Response {| body := pdf; media_type := "application/pdf";
                             content_disposition :=
                               "attachment; filename=" +:+ String (ascii_of_nat 34) ""
                               +:+ output_name +:+ String (ascii_of_nat 34) "" |})
        end
    end.
End Endpoint.



(** ** Observations on strings *)

Fixpoint all_chars (p : ascii -> bool) (s : string) : bool :=
  match s with
  | EmptyString => true
  | String c s' => p c && all_chars p s'
  end.


Fixpoint ends_with (p : ascii -> bool) (s : string) : bool :=
  match s with
  | EmptyString => false
  | String c EmptyString => p c
  | String _ s' => ends_with p s'
  end.


(** What a regular expression matches, whatever the order of the search. *)
Inductive matches : regex -> string -> Prop :=
| matches_Lit (c c' : ascii) :
    lower_ascii c' = lower_ascii c -> matches (Lit c) (String c' EmptyString)
| matches_Class (p : ascii -> bool) (c : ascii) :
    p c = true -> matches (Class p) (String c EmptyString)
| matches_Seq (r1 r2 : regex) (w1 w2 : string) :
    matches r1 w1 -> matches r2 w2 -> matches (Seq r1 r2) (w1 +:+ w2)
| matches_Alt_l (r1 r2 : regex) (w : string) :
    matches r1 w -> matches (Alt r1 r2) w
| matches_Alt_r (r1 r2 : regex) (w : string) :
    matches r2 w -> matches (Alt r1 r2) w
| matches_Opt_none (r : regex) : matches (Opt r) EmptyString
| matches_Opt_some (r : regex) (w : string) : matches r w -> matches (Opt r) w
| matches_Star_nil (r : regex) : matches (Star r) EmptyString
| matches_Star_cons (r : regex) (w1 w2 : string) :
    matches r w1 -> matches (Star r) w2 -> matches (Star r) (w1 +:+ w2).

(** A matcher finds only what the expression matches. *)
Definition sound_at {A : Type} (r : regex)
    (m : string -> (string -> option A) -> option A) : Prop :=
  forall (s : string) (k : string -> option A) (a : A),
    m s k = Some a ->
    exists w s', s = w +:+ s' /\ matches r w /\ k s' = Some a.

(** * Properties *)

(** ** Arithmetic helpers *)

(** Closed comparisons of rationals, by evaluation. *)
Ltac qcompute := vm_compute; first [reflexivity | discriminate].

Lemma py_gt_spec (a b : Q) : reflect (b < a) (py_gt a b).
Proof.
  unfold py_gt. destruct (a ?= b) eqn:E; constructor.
  - apply Qeq_alt in E. lra.
  - apply Qlt_alt in E. lra.
  - apply Qgt_alt in E. lra.
Qed.

Lemma py_max_cases (a b : Q) :
  (a < b /\ py_max a b = b) \/ (b <= a /\ py_max a b = a).
Proof.
  unfold py_max. destruct (py_gt_spec b a); [left | right]; split; auto; lra.
Qed.

Lemma py_min_cases (a b : Q) :
  (b < a /\ py_min a b = b) \/ (a <= b /\ py_min a b = a).
Proof.
  unfold py_min. destruct (py_gt_spec a b); [left | right]; split; auto; lra.
Qed.

Lemma py_max_lower_bound (a b : Q) : b <= py_max a b.
Proof. destruct (py_max_cases a b) as [[H ->]|[H ->]]; lra. Qed.

Lemma py_max_mono (a a' b : Q) : a <= a' -> py_max a b <= py_max a' b.
Proof.
  intros Ha.
  destruct (py_max_cases a b) as [[H ->]|[H ->]];
    destruct (py_max_cases a' b) as [[H' ->]|[H' ->]]; lra.
Qed.

Lemma py_truediv_nonzero (a b : Q) : ~ b == 0 -> py_truediv a b = Ok (a / b).
Proof.
  intros Hb. unfold py_truediv.
  destruct (Qeq_bool b 0) eqn:E; [| reflexivity].
  apply Qeq_bool_eq in E. contradiction.
Qed.

Lemma inject_Z_pos (z : Z) : (0 < z)%Z -> 0 < inject_Z z.
Proof. intros H. unfold Qlt. simpl. lia. Qed.

(** ** Geometry calculator *)

Lemma scaled_height_positive (wpx hpx : Z) (target_wpt : Q) :
  (0 < wpx)%Z -> (0 < hpx)%Z ->
  scaled_height_for_full_width wpx hpx target_wpt
  = Ok (inject_Z hpx * (target_wpt / inject_Z wpx)).
Proof.
  intros Hw Hh. unfold scaled_height_for_full_width.
  destruct (Z.leb_spec wpx 0); [lia |].
  destruct (Z.leb_spec hpx 0); [lia |]. simpl.
  rewrite py_truediv_nonzero; [reflexivity |].
  pose proof (inject_Z_pos wpx Hw). lra.
Qed.

Lemma scaled_height_degenerate (wpx hpx : Z) (target_wpt : Q) :
  (wpx <= 0)%Z \/ (hpx <= 0)%Z ->
  scaled_height_for_full_width wpx hpx target_wpt = Ok 0.
Proof.
  intros H. unfold scaled_height_for_full_width.
  destruct (Z.leb_spec wpx 0); [reflexivity |].
  destruct (Z.leb_spec hpx 0); [reflexivity | lia].
Qed.

(** C5.  For every pixel width [wpx], pixel height [hpx] and target width,
    the scaled height is [hpx * (target_wpt / wpx)] when both pixel sizes are
    positive, and it is [0] as soon as one of them is zero or negative; in
    both cases the function returns, it never raises (no division by zero). *)
Theorem scaled_height_for_full_width_spec (wpx hpx : Z) (target_wpt : Q) :
  ((0 < wpx)%Z /\ (0 < hpx)%Z ->
   scaled_height_for_full_width wpx hpx target_wpt
   = Ok (inject_Z hpx * (target_wpt / inject_Z wpx)))
  /\ ((wpx <= 0)%Z \/ (hpx <= 0)%Z ->
      scaled_height_for_full_width wpx hpx target_wpt = Ok 0)
  /\ raises (scaled_height_for_full_width wpx hpx target_wpt) = false.
Proof.
  split; [| split].
  - intros [Hw Hh]. now apply scaled_height_positive.
  - apply scaled_height_degenerate.
  - destruct (Z_lt_le_dec 0 wpx) as [Hw | Hw];
      [destruct (Z_lt_le_dec 0 hpx) as [Hh | Hh] |].
    + now rewrite scaled_height_positive.
    + now rewrite scaled_height_degenerate by auto.
    + now rewrite scaled_height_degenerate by auto.
Qed.

Lemma scaled_height_for_full_width_spec_witness :
  scaled_height_for_full_width 2000 300 510 = Ok (inject_Z 300 * (510 / inject_Z 2000))
  /\ scaled_height_for_full_width 0 300 510 = Ok 0.
Proof.
  split.
  - apply (scaled_height_for_full_width_spec 2000 300 510). split; reflexivity.
  - apply (scaled_height_for_full_width_spec 0 300 510). left. discriminate.
Defined.

Lemma scaled_height_nonneg (wpx hpx : Z) (target_wpt h : Q) :
  0 <= target_wpt ->
  scaled_height_for_full_width wpx hpx target_wpt = Ok h -> 0 <= h.
Proof.
  intros Ht. unfold scaled_height_for_full_width.
  destruct (Z.leb_spec wpx 0); [intros [= <-]; lra |].
  destruct (Z.leb_spec hpx 0); [intros [= <-]; lra |]. simpl.
  pose proof (inject_Z_pos wpx ltac:(lia)) as Hw.
  pose proof (inject_Z_pos hpx ltac:(lia)) as Hh.
  rewrite py_truediv_nonzero by lra. intros [= <-].
  apply Qmult_le_0_compat; [lra |].
  apply Qle_shift_div_l; lra.
Qed.

Lemma usable_geometry_tops (hh fh : Q) :
  let g := usable_geometry hh fh in
  first_top g = page_height g - MARGIN_PT - hh
  /\ later_top g = page_height g - MARGIN_PT
  /\ header_h g = hh.
Proof. repeat split. Qed.

Lemma usable_geometry_heights (hh fh : Q) :
  let g := usable_geometry hh fh in
  h_first g = py_max (first_top g - bottom_reserved g) 100
  /\ h_later g = py_max (later_top g - bottom_reserved g) 100.
Proof. split; reflexivity. Qed.

Lemma page_geometry_inv (fs : filesystem) (header_path footer_path : string)
    (g : PageGeometry) :
  page_geometry fs header_path footer_path = Ok g ->
  exists hh fh, g = usable_geometry hh fh /\ 0 <= hh.
Proof.
  unfold page_geometry. simpl.
  destruct (calc_footer_height fs _ footer_path) as [fh |]; [simpl | discriminate].
  unfold calc_header_height.
  destruct (read_image_size fs header_path) as [[w h] |]; [simpl | discriminate].
  destruct (scaled_height_for_full_width w h _) as [hh |] eqn:E; [simpl | discriminate].
  intros [= <-]. exists hh, fh. split; [reflexivity |].
  eapply scaled_height_nonneg; [| exact E]. vm_compute. discriminate.
Qed.

(** C6.  For every header height and footer height, oversized ones included,
    both usable heights are at least 100 points; and when the space left
    under the top bound falls below 100, the height is exactly 100. *)
Theorem usable_heights_floor (hh fh : Q) :
  let g := usable_geometry hh fh in
  100 <= h_first g
  /\ 100 <= h_later g
  /\ (first_top g - bottom_reserved g < 100 -> h_first g == 100)
  /\ (later_top g - bottom_reserved g < 100 -> h_later g == 100).
Proof.
  intros g. subst g. destruct (usable_geometry_heights hh fh) as [-> ->].
  set (g := usable_geometry hh fh).
  repeat split; try apply py_max_lower_bound.
  - intros H. destruct (py_max_cases (first_top g - bottom_reserved g) 100)
      as [[_ ->] | [H' _]]; lra.
  - intros H. destruct (py_max_cases (later_top g - bottom_reserved g) 100)
      as [[_ ->] | [H' _]]; lra.
Qed.

Lemma usable_heights_floor_witness :
  h_first (usable_geometry 5000 60) == 100 /\ 100 <= h_later (usable_geometry 5000 60).
Proof.
  destruct (usable_heights_floor 5000 60) as (_ & Hl & Hf & _).
  split; [apply Hf; qcompute | exact Hl].
Defined.

(** C10.  For all non-negative header and footer heights the first-page
    usable height is at most the continuation-page usable height; and the two
    can be equal with a positive header height, namely when both are at the
    100-point floor. *)
Theorem h_first_le_h_later :
  (forall hh fh : Q, 0 <= hh -> 0 <= fh ->
     h_first (usable_geometry hh fh) <= h_later (usable_geometry hh fh))
  /\ (forall hh fh : Q, 0 < hh -> 0 <= fh ->
        h_later (usable_geometry hh fh) == 100 ->
        h_first (usable_geometry hh fh) == h_later (usable_geometry hh fh))
  /\ (exists hh fh : Q, 0 < hh /\ 0 <= fh
        /\ h_first (usable_geometry hh fh) == 100
        /\ h_later (usable_geometry hh fh) == 100).
Proof.
  assert (Hle : forall hh fh : Q, 0 <= hh ->
            h_first (usable_geometry hh fh) <= h_later (usable_geometry hh fh)).
  { intros hh fh Hh.
    destruct (usable_geometry_heights hh fh) as [-> ->].
    apply py_max_mono.
    destruct (usable_geometry_tops hh fh) as (-> & -> & _). lra. }
  split; [| split].
  - intros hh fh Hh _. now apply Hle.
  - intros hh fh Hh _ Hl.
    pose proof (Hle hh fh ltac:(lra)) as Hup.
    assert (Hlow : 100 <= h_first (usable_geometry hh fh))
      by (destruct (usable_geometry_heights hh fh) as [-> _];
          apply py_max_lower_bound).
    lra.
  - exists 5000, 1200. repeat split; qcompute.
Qed.

Lemma h_first_le_h_later_witness :
  h_first (usable_geometry 76.5 59.5) <= h_later (usable_geometry 76.5 59.5)
  /\ h_first (usable_geometry 5000 1200) == h_later (usable_geometry 5000 1200).
Proof.
  destruct h_first_le_h_later as (Hle & Heq & _). split.
  - apply Hle; qcompute.
  - apply Heq; qcompute.
Defined.

(** C3, as stated, fails: with the oversized header and footer both usable
    heights are at the 100-point floor, so they are equal although the header
    height is positive. *)
Lemma h_first_lt_h_later_counterexample :
  ~ (forall (fs : filesystem) (header_path footer_path : string) (g : PageGeometry),
       page_geometry fs header_path footer_path = Ok g ->
       (0 < header_h g -> h_first g < h_later g)
       /\ (header_h g == 0 -> h_first g == h_later g)).
Proof.
  intros H.
  destruct (H oversized_assets "assets/Heater.jpg" "assets/footer.jpg" _ eq_refl)
    as [Hlt _].
  assert (Hpos : 0 < header_h (usable_geometry
                   (inject_Z 1000 * ((fst A4 - 2 * MARGIN_PT) / inject_Z 100))
                   (inject_Z 200 * (fst A4 / inject_Z 100)))) by qcompute.
  specialize (Hlt Hpos). vm_compute in Hlt. discriminate.
Qed.

(** C3, amended.  For all readable header and footer images: the first-page
    usable height is strictly less than the continuation-page usable height
    whenever the header height is positive and the continuation page has more
    than the 100-point floor left under its top bound; the two are equal when
    the header height is zero. *)
Theorem h_first_lt_h_later_above_floor (fs : filesystem)
    (header_path footer_path : string) (g : PageGeometry) :
  page_geometry fs header_path footer_path = Ok g ->
  (0 < header_h g -> 100 < later_top g - bottom_reserved g -> h_first g < h_later g)
  /\ (header_h g == 0 -> h_first g == h_later g).
Proof.
  intros Hg. destruct (page_geometry_inv _ _ _ _ Hg) as (hh & fh & -> & Hh).
  destruct (usable_geometry_heights hh fh) as [-> ->].
  destruct (usable_geometry_tops hh fh) as (-> & -> & ->).
  set (top := page_height (usable_geometry hh fh) - MARGIN_PT).
  set (br := bottom_reserved (usable_geometry hh fh)).
  split; intros H0.
  - intros Hroom.
    destruct (py_max_cases (top - hh - br) 100) as [[? ->] | [? ->]];
      destruct (py_max_cases (top - br) 100) as [[? ->] | [? ->]]; lra.
  - destruct (py_max_cases (top - hh - br) 100) as [[? ->] | [? ->]];
      destruct (py_max_cases (top - br) 100) as [[? ->] | [? ->]]; lra.
Qed.

Lemma h_first_lt_h_later_above_floor_witness :
  exists g, page_geometry sample_assets "assets/Heater.jpg" "assets/footer.jpg" = Ok g
            /\ h_first g < h_later g.
Proof.
  eexists. split; [reflexivity |].
  apply (h_first_lt_h_later_above_floor sample_assets "assets/Heater.jpg"
           "assets/footer.jpg" _ eq_refl); qcompute.
Defined.

(** ** Content assembler *)

Lemma restrictSize_total (w h aW aH : Q) :
  0 < w -> 0 < h -> exists w' h', _restrictSize w h aW aH = Ok (w', h').
Proof.
  intros Hw Hh. unfold _restrictSize.
  destruct (py_gt w aW || py_gt h aH); [| eauto].
  rewrite !py_truediv_nonzero by lra. simpl. eauto.
Qed.

(** What [build_story] returns, by the state of the photo. *)
Lemma build_story_without_photo (fs : filesystem) (data : QuoteRecord)
    (photo : option string) (styles : StyleSet) (H : Q) :
  photo = None \/ (exists path, photo = Some path /\ fs !! path = None) ->
  build_story fs data photo styles H
  = Ok (outline [] (outline_price_block (shows_price data)
                      (dict_get data "canone" "N.D.") styles) data styles).
Proof.
  intros [-> | (path & -> & Hp)]; unfold build_story, path_exists;
    [| rewrite Hp]; cbn [mbind result_bind mret result_ret];
    unfold outline, outline_price_block, shows_price;
    destruct (py_bool _ && _); reflexivity.
Qed.

Lemma build_story_with_photo (fs : filesystem) (data : QuoteRecord) (path : string)
    (styles : StyleSet) (H : Q) (wpx hpx : Z) (w h : Q) :
  fs !! path = Some (RasterImage wpx hpx) ->
  _restrictSize (inject_Z wpx) (inject_Z hpx) (10 * cm) (MAX_VEHICLE_RATIO * H)
  = Ok (w, h) ->
  build_story fs data (Some path) styles H
  = Ok (outline (outline_photo_block path w h)
          (outline_price_block (shows_price data) (dict_get data "canone" "N.D.") styles)
          data styles).
Proof.
  intros Hp Hr. unfold build_story, path_exists, Image_size, read_image_size.
  rewrite Hp. cbn [mbind result_bind mret result_ret]. rewrite Hr.
  cbn [mbind result_bind mret result_ret].
  unfold outline, outline_price_block, shows_price.
  destruct (py_bool _ && _); reflexivity.
Qed.

Lemma build_story_inv (fs : filesystem) (data : QuoteRecord) (photo : option string)
    (styles : StyleSet) (H : Q) (story : list Flowable) :
  build_story fs data photo styles H = Ok story ->
  exists photo_block,
    story = outline photo_block
              (outline_price_block (shows_price data) (dict_get data "canone" "N.D.")
                 styles) data styles
    /\ (photo_block = []
        \/ exists path w h, photo = Some path /\ photo_block = outline_photo_block path w h).
Proof.
  destruct photo as [path |].
  - destruct (fs !! path) as [[wpx hpx |] |] eqn:Hp.
    + destruct (_restrictSize (inject_Z wpx) (inject_Z hpx) (10 * cm)
                  (MAX_VEHICLE_RATIO * H)) as [[w h] |] eqn:Hr.
      * rewrite (build_story_with_photo _ _ _ _ _ _ _ _ _ Hp Hr).
        intros [= <-]. eexists. split; [reflexivity |]. right. eauto.
      * unfold build_story, path_exists, Image_size, read_image_size.
        rewrite Hp. cbn [mbind result_bind mret result_ret]. rewrite Hr.
        discriminate.
    + unfold build_story, path_exists, Image_size, read_image_size.
      rewrite Hp. discriminate.
    + rewrite build_story_without_photo by eauto.
      intros [= <-]. eexists. split; [reflexivity |]. now left.
  - rewrite build_story_without_photo by eauto.
    intros [= <-]. eexists. split; [reflexivity |]. now left.
Qed.

Lemma restrictSize_bounds (w h aW aH w' h' : Q) :
  0 < w -> 0 < h ->
  _restrictSize w h aW aH = Ok (w', h') ->
  w' <= aW /\ h' <= aH /\ w' * h == h' * w.
Proof.
  intros Hw Hh. unfold _restrictSize.
  destruct (py_gt_spec w aW) as [Hgw | Hgw]; destruct (py_gt_spec h aH) as [Hgh | Hgh];
    cbn [orb];
    try (rewrite !py_truediv_nonzero by lra; cbn [mbind result_bind];
         intros [= <- <-];
         assert (Ew : w * (aW / w) == aW) by (field; lra);
         assert (Eh : h * (aH / h) == aH) by (field; lra);
         destruct (py_min_cases (aW / w) (aH / h)) as [[Hm ->] | [Hm ->]];
         (split; [| split]; [| | ring]);
         [ rewrite <- Ew; apply Qmult_le_l; lra
         | rewrite Eh; lra
         | rewrite Ew; lra
         | rewrite <- Eh; apply Qmult_le_l; lra ]).
  intros [= <- <-]. split; [lra | split; [lra | ring]].
Qed.

(** With a photo path to an existing file that is not an image the image
    reader raises, and so does [build_story], whatever the record. *)
Lemma build_story_not_image (fs : filesystem) (data : QuoteRecord) (path : string)
    (styles : StyleSet) (H : Q) :
  fs !! path = Some OtherFile ->
  build_story fs data (Some path) styles H = Raise (OSError path).
Proof.
  intros Hp. unfold build_story, path_exists, Image_size, read_image_size.
  rewrite Hp. reflexivity.
Qed.


(** The bounds of [_restrictSize] also hold for an image with a zero side,
    whenever the call returns. *)
Lemma restrictSize_bounds_nonneg (w h aW aH w' h' : Q) :
  0 <= w -> 0 <= h ->
  _restrictSize w h aW aH = Ok (w', h') ->
  w' <= aW /\ h' <= aH /\ w' * h == h' * w.
Proof.
  intros Hw Hh Hr.
  destruct (Qlt_le_dec 0 w) as [Hw' | Hw'];
    [destruct (Qlt_le_dec 0 h) as [Hh' | Hh'];
       [exact (restrictSize_bounds _ _ _ _ _ _ Hw' Hh' Hr) |] |];
    revert Hr; unfold _restrictSize, py_truediv;
    destruct (py_gt_spec w aW) as [Hgw | Hgw];
    destruct (py_gt_spec h aH) as [Hgh | Hgh]; cbn [orb];
    try (intros [= <- <-]; split; [lra | split; [lra | ring]]).
  all: try (assert (E : h == 0) by lra; apply Qeq_bool_iff in E; rewrite E;
            destruct (Qeq_bool w 0); discriminate).
  all: assert (E : w == 0) by lra; apply Qeq_bool_iff in E; rewrite E; discriminate.
Qed.



(** C7, as stated, fails: a photo path to an existing file is not enough.
    When the file is not an image, [build_story] inserts no image block and
    raises. *)
Lemma build_story_photo_block_counterexample :
  ~ (forall (fs : filesystem) (data : QuoteRecord) (path : string)
            (styles : StyleSet) (H : Q),
       path_exists fs path = true ->
       exists (w h : Q) (rest : list Flowable),
         build_story fs data (Some path) styles H
         = Ok ([Spacer 1 VEHICLE_TOP_BOTTOM_GAP_PT; Image path "CENTER" w h;
                Spacer 1 VEHICLE_TOP_BOTTOM_GAP_PT] ++ rest)
         /\ count_images rest = 0%nat
         /\ h <= MAX_VEHICLE_RATIO * H
         /\ w <= 10 * cm).
Proof.
  intros Hall.
  destruct (Hall unreadable_photo_assets sample_record "tmp/car.jpg" build_styles 600
              eq_refl) as (w & h & rest & Hstory & _).
  rewrite (build_story_not_image unreadable_photo_assets sample_record "tmp/car.jpg"
             build_styles 600 eq_refl) in Hstory.
  discriminate Hstory.
Qed.

(** C7, amended.  With a photo path to an existing image of positive pixel
    size, [build_story] opens the story with one image block between two
    fixed spacers; the image is at most
    [MAX_VEHICLE_RATIO * first_page_usable_height] high and at most 10 cm
    wide whatever its aspect ratio, which it keeps.  With a path to an
    existing file that is not an image it raises.  Whenever it returns on a
    path to an existing file, the story opens with that one bounded image
    block.  With no path, or a path to no file, the story has no image and
    nothing is raised. *)
Theorem build_story_photo_block (fs : filesystem) (data : QuoteRecord)
    (styles : StyleSet) (H : Q) :
  (forall (path : string) (wpx hpx : Z),
      fs !! path = Some (RasterImage wpx hpx) -> (0 < wpx)%Z -> (0 < hpx)%Z ->
      exists (w h : Q) (rest : list Flowable),
        build_story fs data (Some path) styles H
        = Ok ([Spacer 1 VEHICLE_TOP_BOTTOM_GAP_PT; Image path "CENTER" w h;
               Spacer 1 VEHICLE_TOP_BOTTOM_GAP_PT] ++ rest)
        /\ count_images rest = 0%nat
        /\ h <= MAX_VEHICLE_RATIO * H
        /\ w <= 10 * cm
        /\ w * inject_Z hpx == h * inject_Z wpx)
  /\ (forall path : string,
        fs !! path = Some OtherFile ->
        build_story fs data (Some path) styles H = Raise (OSError path))
  /\ (forall (path : string) (story : list Flowable),
        path_exists fs path = true ->
        build_story fs data (Some path) styles H = Ok story ->
        exists (wpx hpx : Z) (w h : Q) (rest : list Flowable),
          fs !! path = Some (RasterImage wpx hpx)
          /\ story = [Spacer 1 VEHICLE_TOP_BOTTOM_GAP_PT; Image path "CENTER" w h;
                      Spacer 1 VEHICLE_TOP_BOTTOM_GAP_PT] ++ rest
          /\ count_images rest = 0%nat
          /\ ((0 <= wpx)%Z -> (0 <= hpx)%Z ->
              h <= MAX_VEHICLE_RATIO * H
              /\ w <= 10 * cm
              /\ w * inject_Z hpx == h * inject_Z wpx))
  /\ (forall photo : option string,
        photo = None \/ (exists path, photo = Some path /\ fs !! path = None) ->
        exists story,
          build_story fs data photo styles H = Ok story
          /\ count_images story = 0%nat).
Proof.
  assert (Hnone : forall b t,
             count_images (outline [] (outline_price_block b t styles) data styles)
             = 0%nat) by (intros [] t; reflexivity).
  split; [| split; [| split]].
  - intros path wpx hpx Hp Hw Hh.
    pose proof (inject_Z_pos wpx Hw) as Hw'.
    pose proof (inject_Z_pos hpx Hh) as Hh'.
    destruct (restrictSize_total (inject_Z wpx) (inject_Z hpx) (10 * cm)
                (MAX_VEHICLE_RATIO * H)) as (w & h & Hr); [assumption .. |].
    rewrite (build_story_with_photo _ _ _ _ _ _ _ _ _ Hp Hr).
    destruct (restrictSize_bounds _ _ _ _ _ _ Hw' Hh' Hr) as (Bw & Bh & Ba).
    exists w, h. eexists. split; [reflexivity |].
    split; [apply Hnone | auto].
  - intros path Hp. now apply build_story_not_image.
  - intros path story Hex Hstory. unfold path_exists in Hex.
    destruct (fs !! path) as [[wpx hpx |] |] eqn:Hp; [| | discriminate Hex].
    + destruct (_restrictSize (inject_Z wpx) (inject_Z hpx) (10 * cm)
                  (MAX_VEHICLE_RATIO * H)) as [[w h] |] eqn:Hr.
      * rewrite (build_story_with_photo _ _ _ _ _ _ _ _ _ Hp Hr) in Hstory.
        injection Hstory as <-.
        exists wpx, hpx, w, h. eexists. split; [reflexivity |].
        split; [reflexivity |]. split; [apply Hnone |].
        intros Hw Hh.
        assert (Hw' : 0 <= inject_Z wpx) by (unfold Qle; simpl; lia).
        assert (Hh' : 0 <= inject_Z hpx) by (unfold Qle; simpl; lia).
        destruct (restrictSize_bounds_nonneg _ _ _ _ _ _ Hw' Hh' Hr) as (Bw & Bh & Ba).
        auto.
      * revert Hstory. unfold build_story, path_exists, Image_size, read_image_size.
        rewrite Hp. cbn [mbind result_bind mret result_ret]. rewrite Hr.
        discriminate.
    + rewrite (build_story_not_image _ _ _ _ _ Hp) in Hstory. discriminate Hstory.
  - intros photo Hphoto. rewrite build_story_without_photo by assumption.
    eexists. split; [reflexivity | apply Hnone].
Qed.

Lemma build_story_photo_block_witness :
  (exists (w h : Q) (rest : list Flowable),
      build_story sample_assets ∅ (Some "tmp/car.jpg") build_styles 600
      = Ok ([Spacer 1 VEHICLE_TOP_BOTTOM_GAP_PT; Image "tmp/car.jpg" "CENTER" w h;
             Spacer 1 VEHICLE_TOP_BOTTOM_GAP_PT] ++ rest)
      /\ count_images rest = 0%nat
      /\ h <= MAX_VEHICLE_RATIO * 600
      /\ w <= 10 * cm
      /\ w * inject_Z 3000 == h * inject_Z 4000)
  /\ build_story unreadable_photo_assets ∅ (Some "tmp/car.jpg") build_styles 600
     = Raise (OSError "tmp/car.jpg").
Proof.
  split.
  - apply (proj1 (build_story_photo_block sample_assets ∅ build_styles 600)
             "tmp/car.jpg" 4000%Z 3000%Z); [reflexivity | lia | lia].
  - apply (proj1 (proj2 (build_story_photo_block unreadable_photo_assets ∅
                           build_styles 600)) "tmp/car.jpg").
    reflexivity.
Defined.


(** Whether [build_story] raises does not depend on the record. *)
Lemma build_story_raises_data (fs : filesystem) (data data' : QuoteRecord)
    (photo : option string) (styles : StyleSet) (H : Q) :
  raises (build_story fs data photo styles H)
  = raises (build_story fs data' photo styles H).
Proof.
  unfold build_story.
  destruct photo as [path |]; [destruct (path_exists fs path) |];
    try (destruct (Image_size fs path) as [[w0 h0] |]; [| reflexivity];
         cbn [mbind result_bind mret result_ret];
         destruct (_restrictSize w0 h0 _ _) as [[w1 h1] |]; [| reflexivity]);
    cbn [mbind result_bind mret result_ret];
    do 2 destruct (py_bool _ && _); reflexivity.
Qed.

Ltac in_list := solve [simpl; repeat first [left; reflexivity | right]].
Ltac in_sections :=
  first [ apply in_or_app; left; in_list
        | apply in_or_app; right; in_sections
        | in_list ].

(** C8.  For every record and every field of the fixed field set, a field
    that is absent from the record is substituted by exactly "N.D.", and the
    line that stands for it is in the story; the lookups never raise: whether
    [build_story] returns depends on the photo only, and without a photo it
    returns for every record. *)
Theorem absent_field_renders_sentinel (fs : filesystem) (styles : StyleSet) (H : Q) :
  (forall (data : QuoteRecord) (photo : option string) (story : list Flowable)
          (field line : string),
      build_story fs data photo styles H = Ok story ->
      In (field, line) ABSENT_FIELD_LINES ->
      data !! field = None ->
      dict_get data field "N.D." = "N.D."
      /\ In (Paragraph line (base styles)) story)
  /\ map fst ABSENT_FIELD_LINES = FIELDS
  /\ (forall (data : QuoteRecord) (photo : option string),
        raises (build_story fs data photo styles H)
        = raises (build_story fs ∅ photo styles H))
  /\ (forall data : QuoteRecord, raises (build_story fs data None styles H) = false).
Proof.
  split; [| split; [reflexivity | split]].
  - intros data photo story field line Hs Hin Hnone.
    split; [unfold dict_get; now rewrite Hnone |].
    destruct (build_story_inv _ _ _ _ _ _ Hs) as (pb & -> & _).
    unfold outline. apply in_or_app. right.
    unfold outline_price_block, shows_price.
    cbn in Hin.
    unfold outline_client_data, outline_vehicle, outline_economic_terms, dict_get.
    repeat (destruct Hin as [[= <- <-] | Hin]; [rewrite Hnone; in_sections |]).
    destruct Hin.
  - intros data photo. apply build_story_raises_data.
  - intros data. rewrite build_story_without_photo by auto. reflexivity.
Qed.

Lemma absent_field_renders_sentinel_witness :
  dict_get {[ "canone" := "450" ]} "sede" "N.D." = "N.D."
  /\ In (Paragraph "Sede: N.D." (base build_styles))
        (outline [] (outline_price_callout "450" build_styles) {[ "canone" := "450" ]}
           build_styles).
Proof.
  apply (proj1 (absent_field_renders_sentinel ∅ build_styles 600)
           {[ "canone" := "450" ]} None _ "sede" "Sede: N.D.").
  - reflexivity.
  - cbn. tauto.
  - reflexivity.
Defined.

(** ** Price callout *)

(** The renderer's test in words: the fee is present, is not the empty
    string, and its lower-cased text, taken as it is, does not start with
    "n.d". *)
Lemma shows_price_spec (data : QuoteRecord) :
  shows_price data = true
  <-> exists v, data !! "canone" = Some v /\ v <> ""
                /\ startswith (py_lower v) "n.d" = false.
Proof.
  unfold shows_price, dict_get. destruct (data !! "canone") as [v |].
  - rewrite andb_true_iff, negb_true_iff. split.
    + intros [Hv Hs]. exists v. repeat split; [| assumption].
      intros ->. discriminate.
    + intros (v' & [= <-] & Hv & Hs). split; [| assumption].
      destruct v; [contradiction | reflexivity].
  - split; [discriminate | intros (v & [=] & _)].
Qed.

Lemma emits_price_line_outline (pb : list Flowable) (b : bool) (t : string)
    (data : QuoteRecord) :
  emits_price_line pb = false ->
  emits_price_line (outline pb (outline_price_block b t build_styles) data build_styles)
  = b.
Proof.
  intros Hpb. unfold emits_price_line, outline in *.
  rewrite existsb_app, Hpb. destruct b; reflexivity.
Qed.

Lemma emits_plain_fee_line_outline (pb : list Flowable) (b : bool) (t : string)
    (data : QuoteRecord) :
  emits_plain_fee_line pb = false ->
  emits_plain_fee_line
    (outline pb (outline_price_block b t build_styles) data build_styles)
  = negb b.
Proof.
  intros Hpb. unfold emits_plain_fee_line, outline in *.
  rewrite existsb_app, Hpb. destruct b; reflexivity.
Qed.

(** C2, as stated, fails: for the fee " N.D." (a leading blank) the trimmed
    value starts with the sentinel, yet the renderer, which does not trim,
    prints the price line. *)
Lemma price_callout_counterexample :
  ~ (forall (data : QuoteRecord) (story : list Flowable),
       build_story ∅ data None build_styles 600 = Ok story ->
       (emits_price_line story = true <-> spec_shows_price data = true)).
Proof.
  intros H.
  destruct (H {[ "canone" := " N.D." ]} _ eq_refl) as [H1 _].
  discriminate (H1 eq_refl).
Qed.

(** Two more inputs on which the wording and the renderer part: the fee
    "N.D" (no final dot) and the empty fee are both present and do not start
    with "N.D.", yet neither gets a price line. *)
Example price_callout_short_sentinel :
  exists story,
    build_story ∅ {[ "canone" := "N.D" ]} None build_styles 600 = Ok story
    /\ spec_shows_price {[ "canone" := "N.D" ]} = true
    /\ emits_price_line story = false
    /\ emits_plain_fee_line story = true.
Proof. eexists. repeat split; reflexivity. Qed.

Example price_callout_empty_fee :
  exists story,
    build_story ∅ {[ "canone" := "" ]} None build_styles 600 = Ok story
    /\ spec_shows_price {[ "canone" := "" ]} = true
    /\ emits_price_line story = false
    /\ emits_plain_fee_line story = true.
Proof. eexists. repeat split; reflexivity. Qed.

(** C2, amended.  For every record, [build_story] emits the price line
    (after a 4-point spacer and followed by the fixed reassurance note) if and
    only if the monthly fee is present, is not empty, and its lower-cased
    value, untrimmed, does not start with "n.d"; in every other case it emits
    the plain line "Canone mensile: N.D." in its place and no price-styled
    paragraph. *)
Theorem price_callout_iff (fs : filesystem) (data : QuoteRecord)
    (photo : option string) (H : Q) (story : list Flowable) :
  build_story fs data photo build_styles H = Ok story ->
  (emits_price_line story = true
   <-> exists v, data !! "canone" = Some v /\ v <> ""
                 /\ startswith (py_lower v) "n.d" = false)
  /\ (emits_price_line story = true ->
      emits_plain_fee_line story = false
      /\ exists before after,
           story = before
                   ++ [Spacer 1 4;
                       Paragraph (dict_get data "canone" "N.D." +:+ " euro + IVA al mese")
                                 (price build_styles);
                       Paragraph "Tutto incluso - senza sorprese" (italic build_styles)]
                   ++ after)
  /\ (emits_price_line story = false ->
      emits_plain_fee_line story = true
      /\ exists before after,
           story = before
                   ++ [Paragraph "Canone mensile: N.D." (base build_styles)]
                   ++ after).
Proof.
  intros Hs. destruct (build_story_inv _ _ _ _ _ _ Hs) as (pb & -> & Hpb).
  assert (Hp : emits_price_line pb = false /\ emits_plain_fee_line pb = false)
    by (destruct Hpb as [-> | (p & w & h & _ & ->)]; split; reflexivity).
  destruct Hp as [Hp1 Hp2].
  rewrite emits_price_line_outline, emits_plain_fee_line_outline by assumption.
  split; [apply shows_price_spec | split]; intros ->; (split; [reflexivity |]);
    exists (pb ++ outline_client_data data build_styles
               ++ outline_vehicle data build_styles
               ++ outline_economic_terms data build_styles),
           (outline_services build_styles ++ outline_documentation build_styles
              ++ outline_terms build_styles ++ outline_contacts build_styles);
    unfold outline, outline_price_block; now rewrite <- !app_assoc.
Qed.

Lemma price_callout_iff_witness :
  emits_price_line
    (outline [] (outline_price_callout "450" build_styles)
       {[ "canone" := "450" ]} build_styles) = true
  <-> exists v, ({[ "canone" := "450" ]} : QuoteRecord) !! "canone" = Some v /\ v <> ""
                /\ startswith (py_lower v) "n.d" = false.
Proof.
  exact (proj1 (price_callout_iff ∅ {[ "canone" := "450" ]} None 600
                  (outline [] (outline_price_callout "450" build_styles)
                     {[ "canone" := "450" ]} build_styles) eq_refl)).
Defined.

(** ** Page template engine *)

Section DocTemplateFacts.
Variable wrap : Flowable -> Q.
Variable pageTemplates : list PageTemplate.

Lemma handle_pageBegin_page (t : PageTemplate) (p : Page) (avail : Q) :
  handle_pageBegin t = Ok (p, avail) ->
  page_template p = template_id t /\ onPage t [] = Ok (page_canvas p).
Proof.
  unfold handle_pageBegin. destruct (onPage t []) as [c |]; [| discriminate].
  cbn [mbind result_bind]. destruct (frames t); [discriminate |].
  intros [= <- _]. split; reflexivity.
Qed.

Lemma begun_with_add_flowable (t : PageTemplate) (c : Canvas) (p : Page)
    (f : Flowable) :
  begun_with t c p -> begun_with t c (add_flowable p f).
Proof. intros [H1 H2]. split; assumption. Qed.

(** A template without successor is the template of every later page. *)
Lemma handle_flowables_same_template (t : PageTemplate) (c : Canvas) :
  autoNextPageTemplate t = None ->
  onPage t [] = Ok c ->
  forall (story : list Flowable) (cur : Page) (avail : Q) (pages : list Page),
    begun_with t c cur ->
    handle_flowables wrap pageTemplates story t cur avail = Ok pages ->
    Forall (begun_with t c) pages.
Proof.
  intros Hauto Hc story.
  induction story as [| f rest IH]; intros cur avail pages Hcur; cbn [handle_flowables].
  - intros [= <-]. now constructor.
  - destruct (Qle_bool (wrap f) avail).
    + apply IH. now apply begun_with_add_flowable.
    + unfold handle_pageEnd. rewrite Hauto. cbn [mbind result_bind].
      destruct (handle_pageBegin t) as [[p avail'] |] eqn:Hp;
        cbn [mbind result_bind]; [| discriminate].
      apply handle_pageBegin_page in Hp. destruct Hp as [Hp1 Hp2].
      destruct (Qle_bool (wrap f) avail'); [| discriminate].
      destruct (handle_flowables wrap pageTemplates rest t (add_flowable p f) _)
        as [ps |] eqn:Hps; cbn [mbind result_bind]; [| discriminate].
      intros [= <-]. constructor; [assumption |].
      eapply IH; [| exact Hps]. apply begun_with_add_flowable.
      split; [assumption | congruence].
Qed.

(** A template that names a successor is left after its first page: the
    engine does change template when it is told to. *)
Lemma handle_flowables_auto_next (t1 t2 : PageTemplate) (c2 : Canvas) :
  autoNextPageTemplate t1 = Some (template_id t2) ->
  find_template pageTemplates (template_id t2) = Some t2 ->
  autoNextPageTemplate t2 = None ->
  onPage t2 [] = Ok c2 ->
  forall (story : list Flowable) (cur : Page) (avail : Q) (pages : list Page),
    handle_flowables wrap pageTemplates story t1 cur avail = Ok pages ->
    exists first rest,
      pages = first :: rest
      /\ page_template first = page_template cur
      /\ Forall (begun_with t2 c2) rest.
Proof.
  intros Hauto Hfind Hauto2 Hc2 story.
  induction story as [| f rest IH]; intros cur avail pages; cbn [handle_flowables].
  - intros [= <-]. exists cur, []. repeat split. constructor.
  - destruct (Qle_bool (wrap f) avail).
    + intros Hp. destruct (IH _ _ _ Hp) as (first & ps & -> & Hf & Hps).
      exists first, ps. repeat split; assumption.
    + unfold handle_pageEnd. rewrite Hauto, Hfind. cbn [mbind result_bind].
      destruct (handle_pageBegin t2) as [[p avail'] |] eqn:Hp;
        cbn [mbind result_bind]; [| discriminate].
      apply handle_pageBegin_page in Hp. destruct Hp as [Hp1 Hp2].
      destruct (Qle_bool (wrap f) avail'); [| discriminate].
      destruct (handle_flowables wrap pageTemplates rest t2 (add_flowable p f) _)
        as [ps |] eqn:Hps; cbn [mbind result_bind]; [| discriminate].
      intros [= <-]. exists cur, ps. repeat split.
      eapply handle_flowables_same_template; [exact Hauto2 | exact Hc2 | | exact Hps].
      apply begun_with_add_flowable. split; [assumption | congruence].
Qed.
End DocTemplateFacts.

Lemma build_auto_next (wrap : Flowable -> Q) (t1 t2 : PageTemplate)
    (others : list PageTemplate) (c2 : Canvas) (story : list Flowable)
    (pages : list Page) :
  autoNextPageTemplate t1 = Some (template_id t2) ->
  find_template (t1 :: others) (template_id t2) = Some t2 ->
  autoNextPageTemplate t2 = None ->
  onPage t2 [] = Ok c2 ->
  build wrap (t1 :: others) story = Ok pages ->
  pages = []
  \/ exists first rest,
       pages = first :: rest
       /\ page_template first = template_id t1
       /\ Forall (begun_with t2 c2) rest.
Proof.
  intros Hauto Hfind Hauto2 Hc2. unfold build. destruct story as [| f rest].
  - intros [= <-]. now left.
  - destruct (handle_pageBegin t1) as [[p avail] |] eqn:Hp;
      cbn [mbind result_bind]; [| discriminate].
    apply handle_pageBegin_page in Hp. destruct Hp as [Hp1 _].
    intros Hb. right.
    destruct (handle_flowables_auto_next wrap (t1 :: others) t1 t2 c2
                Hauto Hfind Hauto2 Hc2 _ _ _ _ Hb) as (first & ps & -> & Hf & Hps).
    exists first, ps. repeat split; [congruence | assumption].
Qed.

Lemma build_same_template (wrap : Flowable -> Q) (t : PageTemplate)
    (others : list PageTemplate) (c : Canvas) (story : list Flowable)
    (pages : list Page) :
  autoNextPageTemplate t = None ->
  onPage t [] = Ok c ->
  build wrap (t :: others) story = Ok pages ->
  Forall (begun_with t c) pages.
Proof.
  intros Hauto Hc. unfold build. destruct story as [| f rest].
  - intros [= <-]. constructor.
  - destruct (handle_pageBegin t) as [[p avail] |] eqn:Hp;
      cbn [mbind result_bind]; [| discriminate].
    apply handle_pageBegin_page in Hp. destruct Hp as [Hp1 Hp2].
    apply handle_flowables_same_template; [assumption .. |].
    split; [assumption | congruence].
Qed.

(** ** The renderer *)

Lemma first_page_canvas (fs : filesystem) (header_path footer_path : string)
    (pw ph uw : Q) (c : Canvas) :
  (c ← draw_header_first_page fs [] header_path MARGIN_PT pw ph uw;
   draw_footer fs c footer_path pw ph) = Ok c ->
  exists y hh th,
    c = [drawImage header_path MARGIN_PT y uw hh;
         drawImage footer_path 0 BOTTOM_OFFSET_PT pw th].
Proof.
  unfold draw_header_first_page, draw_footer.
  destruct (read_image_size fs header_path) as [[w h] |];
    cbn [mbind result_bind]; [| discriminate].
  destruct (scaled_height_for_full_width w h uw) as [hh |];
    cbn [mbind result_bind]; [| discriminate].
  destruct (read_image_size fs footer_path) as [[w' h'] |];
    cbn [mbind result_bind]; [| discriminate].
  destruct (scaled_height_for_full_width w' h' pw) as [th |];
    cbn [mbind result_bind]; [| discriminate].
  intros [= <-]. eauto.
Qed.

Lemma first_page_canvas_draws (header_path footer_path : string) (y uw hh pw th : Q) :
  let c := [drawImage header_path MARGIN_PT y uw hh;
            drawImage footer_path 0 BOTTOM_OFFSET_PT pw th] in
  header_draws header_path c = 1%nat /\ footer_draws footer_path c = 1%nat.
Proof.
  assert (H1 : is_header_draw header_path (drawImage header_path MARGIN_PT y uw hh) = true)
    by (cbn; now rewrite String.eqb_refl).
  assert (H2 : is_header_draw header_path (drawImage footer_path 0 BOTTOM_OFFSET_PT pw th)
               = false) by (cbn; apply andb_false_r).
  assert (H3 : is_footer_draw footer_path (drawImage header_path MARGIN_PT y uw hh) = false)
    by (cbn; apply andb_false_r).
  assert (H4 : is_footer_draw footer_path (drawImage footer_path 0 BOTTOM_OFFSET_PT pw th)
               = true) by (cbn; now rewrite String.eqb_refl).
  intros c. subst c. unfold header_draws, footer_draws. cbn [List.filter].
  rewrite H1, H2, H3, H4. split; reflexivity.
Qed.

Lemma list_sum_ones {A : Type} (f : A -> nat) (l : list A) :
  Forall (fun a => f a = 1%nat) l -> list_sum (map f l) = length l.
Proof.
  induction 1 as [| a l Ha _ IH]; [reflexivity |].
  simpl. now rewrite Ha, IH.
Qed.

(** C1.  The claim asks for template "First" on the first page only, "Later"
    on every page after it, hence one header painting per render and one
    footer painting per page.  The renderer does otherwise: it registers both
    templates but never names "Later" as the successor of "First", so every
    page of every render is begun with "First".  Each page gets one footer
    painting, as claimed, and also one header painting: a render of n pages
    paints the header n times. *)
Theorem generate_pdf_bytes_first_template_on_every_page (wrap : Flowable -> Q)
    (fs : filesystem) (data : QuoteRecord) (photo : option string)
    (header_path footer_path : string) (pages : list Page) :
  generate_pdf_bytes wrap fs data photo header_path footer_path = Ok pages ->
  Forall (fun p => page_template p = "First"
                   /\ header_draws header_path (page_canvas p) = 1%nat
                   /\ footer_draws footer_path (page_canvas p) = 1%nat) pages
  /\ total_header_draws header_path pages = length pages.
Proof.
  unfold generate_pdf_bytes.
  destruct (page_geometry fs header_path footer_path) as [g |];
    cbn [mbind result_bind]; [| discriminate].
  destruct (build_story fs data photo build_styles (h_first g)) as [story |];
    cbn [mbind result_bind]; [| discriminate].
  intros Hb.
  match type of Hb with build _ (?t :: _) _ = _ => set (first := t) in * end.
  assert (Hall : Forall (fun p => page_template p = "First"
                   /\ header_draws header_path (page_canvas p) = 1%nat
                   /\ footer_draws footer_path (page_canvas p) = 1%nat) pages).
  { destruct (onPage first []) as [c |] eqn:Hc.
    - pose proof (build_same_template wrap first _ c story pages eq_refl Hc Hb) as Hpages.
      cbn [onPage first] in Hc. apply first_page_canvas in Hc.
      destruct Hc as (y & hh & th & ->).
      eapply List.Forall_impl; [| exact Hpages].
      intros p [Ht Hcv]. rewrite Hcv. split; [exact Ht |].
      apply first_page_canvas_draws.
    - unfold build in Hb. destruct story; [injection Hb as <-; constructor |].
      unfold handle_pageBegin in Hb. rewrite Hc in Hb. discriminate. }
  split; [exact Hall |].
  unfold total_header_draws. apply list_sum_ones.
  eapply List.Forall_impl; [| exact Hall]. now intros p (_ & Hh & _).
Qed.

Lemma generate_pdf_bytes_first_template_on_every_page_witness :
  exists pages,
    sample_render = Ok pages
    /\ map page_template pages = ["First"; "First"]
    /\ total_header_draws "assets/Heater.jpg" pages = 2%nat.
Proof.
  destruct sample_render as [pages |] eqn:E; [| now vm_compute in E].
  exists pages. split; [reflexivity |].
  destruct (generate_pdf_bytes_first_template_on_every_page _ _ _ _ _ _ _ E)
    as [_ Hsum].
  rewrite Hsum. vm_compute in E. injection E as <-. split; reflexivity.
Defined.

(** * Further properties of the code *)

(** ** Geometry calculator *)



Lemma scaled_height_returns (wpx hpx : Z) (target_wpt : Q) :
  exists h, scaled_height_for_full_width wpx hpx target_wpt = Ok h.
Proof.
  destruct (Z_lt_le_dec 0 wpx) as [Hw | Hw];
    [destruct (Z_lt_le_dec 0 hpx) as [Hh | Hh] |].
  - rewrite scaled_height_positive by assumption. eauto.
  - rewrite scaled_height_degenerate by auto. eauto.
  - rewrite scaled_height_degenerate by auto. eauto.
Qed.

Lemma page_geometry_ok_inv (fs : filesystem) (header_path footer_path : string)
    (g : PageGeometry) :
  page_geometry fs header_path footer_path = Ok g ->
  exists (fw fhp hw hhp : Z) (hh fh : Q),
    read_image_size fs footer_path = Ok (fw, fhp)
    /\ read_image_size fs header_path = Ok (hw, hhp)
    /\ scaled_height_for_full_width fw fhp (page_width g) = Ok fh
    /\ scaled_height_for_full_width hw hhp (usable_width g) = Ok hh
    /\ g = usable_geometry hh fh.
Proof.
  unfold page_geometry, calc_footer_height, calc_header_height.
  cbn [A4 fst snd].
  destruct (read_image_size fs footer_path) as [[fw fhp] |];
    cbn [mbind result_bind]; [| discriminate].
  destruct (scaled_height_for_full_width fw fhp _) as [fh |] eqn:Ef;
    cbn [mbind result_bind]; [| discriminate].
  destruct (read_image_size fs header_path) as [[hw hhp] |];
    cbn [mbind result_bind]; [| discriminate].
  destruct (scaled_height_for_full_width hw hhp _) as [hh |] eqn:Eh;
    cbn [mbind result_bind]; [| discriminate].
  intros [= <-]. exists fw, fhp, hw, hhp, hh, fh. repeat split; assumption.
Qed.

Lemma page_geometry_nonneg (fs : filesystem) (header_path footer_path : string)
    (g : PageGeometry) :
  page_geometry fs header_path footer_path = Ok g ->
  exists hh fh, g = usable_geometry hh fh /\ 0 <= hh /\ 0 <= fh.
Proof.
  intros Hg.
  destruct (page_geometry_ok_inv _ _ _ _ Hg)
    as (fw & fhp & hw & hhp & hh & fh & _ & _ & Ef & Eh & ->).
  exists hh, fh. split; [reflexivity |]. split.
  - eapply scaled_height_nonneg; [| exact Eh]. qcompute.
  - eapply scaled_height_nonneg; [| exact Ef]. qcompute.
Qed.



(** The footer is read first; then the header. *)
Lemma page_geometry_footer_error (fs : filesystem) (header_path footer_path : string)
    (e : exn) :
  read_image_size fs footer_path = Raise e ->
  page_geometry fs header_path footer_path = Raise e.
Proof.
  unfold page_geometry, calc_footer_height. now intros ->.
Qed.

Lemma page_geometry_header_error (fs : filesystem) (header_path footer_path : string)
    (size : Z * Z) (e : exn) :
  read_image_size fs footer_path = Ok size ->
  read_image_size fs header_path = Raise e ->
  page_geometry fs header_path footer_path = Raise e.
Proof.
  unfold page_geometry, calc_footer_height, calc_header_height. cbn [A4 fst snd].
  destruct size as [fw fhp]. intros -> Hh. cbn [mbind result_bind].
  destruct (scaled_height_returns fw fhp (210 * mm)) as [fh ->].
  cbn [mbind result_bind]. now rewrite Hh.
Qed.

Lemma page_geometry_returns (fs : filesystem) (header_path footer_path : string)
    (fsize hsize : Z * Z) :
  read_image_size fs footer_path = Ok fsize ->
  read_image_size fs header_path = Ok hsize ->
  exists g, page_geometry fs header_path footer_path = Ok g.
Proof.
  unfold page_geometry, calc_footer_height, calc_header_height. cbn [A4 fst snd].
  destruct fsize as [fw fhp], hsize as [hw hhp]. intros -> ->.
  cbn [mbind result_bind].
  destruct (scaled_height_returns fw fhp (210 * mm)) as [fh ->].
  cbn [mbind result_bind].
  destruct (scaled_height_returns hw hhp (210 * mm - 2 * MARGIN_PT)) as [hh ->].
  cbn [mbind result_bind mret result_ret]. eauto.
Qed.

(** X3.  The renderer's geometry is computed exactly when both brand images
    can be read.  The footer is read first: an unreadable footer is the error
    reported, whatever the header; an unreadable header is reported when the
    footer is fine. *)
Theorem page_geometry_errors (fs : filesystem) (header_path footer_path : string) :
  (forall e, read_image_size fs footer_path = Raise e ->
             page_geometry fs header_path footer_path = Raise e)
  /\ (forall size e,
        read_image_size fs footer_path = Ok size ->
        read_image_size fs header_path = Raise e ->
        page_geometry fs header_path footer_path = Raise e)
  /\ (forall fsize hsize,
        read_image_size fs footer_path = Ok fsize ->
        read_image_size fs header_path = Ok hsize ->
        exists g, page_geometry fs header_path footer_path = Ok g).
Proof.
  split; [| split].
  - intros e. apply page_geometry_footer_error.
  - intros size e. apply page_geometry_header_error.
  - intros fsize hsize. apply page_geometry_returns.
Qed.

Lemma page_geometry_errors_witness :
  page_geometry ∅ "assets/Heater.jpg" "assets/footer.jpg"
  = Raise (OSError "assets/footer.jpg")
  /\ page_geometry {[ "assets/footer.jpg" := RasterImage 2000 200 ]}
       "assets/Heater.jpg" "assets/footer.jpg"
     = Raise (OSError "assets/Heater.jpg").
Proof.
  split.
  - apply (proj1 (page_geometry_errors ∅ "assets/Heater.jpg" "assets/footer.jpg")).
    reflexivity.
  - apply (proj1 (proj2 (page_geometry_errors
                           {[ "assets/footer.jpg" := RasterImage 2000 200 ]}
                           "assets/Heater.jpg" "assets/footer.jpg"))
             (2000%Z, 200%Z)); reflexivity.
Defined.

(** X4.  An image that reports a zero or negative pixel size does not stop
    the geometry: a degenerate header counts as height 0, so both frames get
    the same height; a degenerate footer counts as height 0, so only the
    bottom offset and the gap are reserved. *)
Theorem page_geometry_degenerate_images (fs : filesystem)
    (header_path footer_path : string) (hw hhp fw fhp : Z) :
  fs !! header_path = Some (RasterImage hw hhp) ->
  fs !! footer_path = Some (RasterImage fw fhp) ->
  exists g,
    page_geometry fs header_path footer_path = Ok g
    /\ ((hw <= 0)%Z \/ (hhp <= 0)%Z -> header_h g = 0 /\ h_first g == h_later g)
    /\ ((fw <= 0)%Z \/ (fhp <= 0)%Z ->
        footer_h g = 0
        /\ bottom_reserved g == BOTTOM_OFFSET_PT + RESERVED_GAP_ABOVE_FOOTER_PT).
Proof.
  intros Hh Hf.
  destruct (page_geometry_returns fs header_path footer_path (fw, fhp) (hw, hhp))
    as [g Hg];
    [unfold read_image_size; now rewrite Hf
    | unfold read_image_size; now rewrite Hh |].
  exists g. split; [assumption |].
  destruct (page_geometry_ok_inv _ _ _ _ Hg)
    as (fw' & fhp' & hw' & hhp' & hh & fh & Rf & Rh & Ef & Eh & ->).
  unfold read_image_size in Rf, Rh. rewrite Hf in Rf. rewrite Hh in Rh.
  injection Rf as <- <-. injection Rh as <- <-.
  split.
  - intros Hdeg. rewrite scaled_height_degenerate in Eh by assumption.
    injection Eh as <-. split; [reflexivity |].
    destruct (usable_geometry_heights 0 fh) as [-> ->].
    destruct (usable_geometry_tops 0 fh) as (-> & -> & _).
    set (ph := page_height (usable_geometry 0 fh)).
    set (br := bottom_reserved (usable_geometry 0 fh)).
    destruct (py_max_cases (ph - MARGIN_PT - 0 - br) 100) as [[? ->] | [? ->]];
      destruct (py_max_cases (ph - MARGIN_PT - br) 100) as [[? ->] | [? ->]]; lra.
  - intros Hdeg. rewrite scaled_height_degenerate in Ef by assumption.
    injection Ef as <-. split; [reflexivity |].
    change (bottom_reserved (usable_geometry hh 0))
      with (BOTTOM_OFFSET_PT + 0 + RESERVED_GAP_ABOVE_FOOTER_PT). lra.
Qed.

Lemma page_geometry_degenerate_images_witness :
  exists g,
    page_geometry {[ "h" := RasterImage 0 300; "f" := RasterImage 2000 200 ]} "h" "f"
    = Ok g
    /\ header_h g = 0 /\ h_first g == h_later g.
Proof.
  destruct (page_geometry_degenerate_images
              {[ "h" := RasterImage 0 300; "f" := RasterImage 2000 200 ]}
              "h" "f" 0 300 2000 200) as (g & Hg & Hh & _);
    [reflexivity | reflexivity |].
  exists g. split; [exact Hg |]. apply Hh. left. lia.
Defined.

(** X5.  With readable images both scaled heights are non-negative, at least
    the bottom offset and the gap are reserved under the frames, and no frame
    is taller than the page less the top margin, the bottom offset and the
    gap. *)
Theorem usable_heights_bounds (fs : filesystem) (header_path footer_path : string)
    (g : PageGeometry) :
  page_geometry fs header_path footer_path = Ok g ->
  0 <= header_h g /\ 0 <= footer_h g
  /\ BOTTOM_OFFSET_PT + RESERVED_GAP_ABOVE_FOOTER_PT <= bottom_reserved g
  /\ h_later g
     <= page_height g - MARGIN_PT - BOTTOM_OFFSET_PT - RESERVED_GAP_ABOVE_FOOTER_PT.
Proof.
  intros Hg. destruct (page_geometry_nonneg _ _ _ _ Hg) as (hh & fh & -> & Hh & Hf).
  destruct (usable_geometry_heights hh fh) as [_ ->].
  destruct (usable_geometry_tops hh fh) as (_ & -> & ->).
  change (footer_h (usable_geometry hh fh)) with fh.
  change (bottom_reserved (usable_geometry hh fh))
    with (BOTTOM_OFFSET_PT + fh + RESERVED_GAP_ABOVE_FOOTER_PT).
  assert (Hph : page_height (usable_geometry hh fh) == 297 * mm) by reflexivity.
  set (ph := page_height (usable_geometry hh fh)) in *.
  assert (Hroom : 100 <= 297 * mm - MARGIN_PT - BOTTOM_OFFSET_PT
                         - RESERVED_GAP_ABOVE_FOOTER_PT) by qcompute.
  destruct (py_max_cases
              (ph - MARGIN_PT
               - (BOTTOM_OFFSET_PT + fh + RESERVED_GAP_ABOVE_FOOTER_PT)) 100)
    as [[? ->] | [? ->]]; repeat split; lra.
Qed.

Lemma usable_heights_bounds_witness :
  exists g,
    page_geometry sample_assets "assets/Heater.jpg" "assets/footer.jpg" = Ok g
    /\ 0 <= header_h g /\ 0 <= footer_h g
    /\ BOTTOM_OFFSET_PT + RESERVED_GAP_ABOVE_FOOTER_PT <= bottom_reserved g
    /\ h_later g
       <= page_height g - MARGIN_PT - BOTTOM_OFFSET_PT - RESERVED_GAP_ABOVE_FOOTER_PT.
Proof.
  eexists. split; [reflexivity |].
  apply (usable_heights_bounds sample_assets "assets/Heater.jpg" "assets/footer.jpg" _
           eq_refl).
Defined.

(** ** Page callbacks *)



(** ** Content assembler *)

Lemma append_empty_r (s : string) : s +:+ "" = s.
Proof.
  induction s as [| c s IH]; [reflexivity |].
  change (String c s +:+ "") with (String c (s +:+ "")). now rewrite IH.
Qed.

(** X7.  Every field of the record that is present is printed as it is, in
    the body style, between the fixed label and the fixed unit of its line:
    no trimming, no change of case, no escaping. *)
Theorem present_field_rendered_verbatim (fs : filesystem) (data : QuoteRecord)
    (photo : option string) (styles : StyleSet) (H : Q) (story : list Flowable)
    (field label unit value : string) :
  build_story fs data photo styles H = Ok story ->
  In (field, (label, unit)) FIELD_LABELS ->
  data !! field = Some value ->
  In (Paragraph (label +:+ value +:+ unit) (base styles)) story.
Proof.
  intros Hs Hin Hv.
  destruct (build_story_inv _ _ _ _ _ _ Hs) as (pb & -> & _).
  unfold outline. apply in_or_app. right.
  cbn in Hin.
  unfold outline_client_data, outline_vehicle, outline_economic_terms, dict_get.
  repeat (destruct Hin as [[= <- <- <-] | Hin];
          [rewrite Hv, ?append_empty_r; in_sections |]).
  destruct Hin.
Qed.

Lemma present_field_rendered_verbatim_witness :
  In (Paragraph ("Marca e Modello: " +:+ "Model X" +:+ "") (base build_styles))
     (outline [] (outline_price_callout "450" build_styles) sample_record build_styles).
Proof.
  apply (present_field_rendered_verbatim ∅ sample_record None build_styles 600 _
           "marca_modello" "Marca e Modello: " "" "Model X").
  - reflexivity.
  - cbn. tauto.
  - reflexivity.
Defined.

(** X8.  The story depends on the record through the thirteen fields only:
    two records that agree on them give the same story (or the same error),
    whatever other keys they hold. *)
Theorem build_story_reads_fields_only (fs : filesystem) (data data' : QuoteRecord)
    (photo : option string) (styles : StyleSet) (H : Q) :
  (forall field, In field FIELDS -> data !! field = data' !! field) ->
  build_story fs data photo styles H = build_story fs data' photo styles H.
Proof.
  intros Hagree.
  assert (Hget : forall field, In field FIELDS ->
                 dict_get data field "N.D." = dict_get data' field "N.D.")
    by (intros field Hin; unfold dict_get; now rewrite (Hagree field Hin)).
  unfold build_story.
  rewrite !(Hget "cliente_nome"), !(Hget "piva_cf"), !(Hget "sede"),
    !(Hget "referente"), !(Hget "marca_modello"), !(Hget "versione"),
    !(Hget "motore"), !(Hget "neopatentati"), !(Hget "consegna"),
    !(Hget "durata"), !(Hget "km_annui"), !(Hget "anticipo"), !(Hget "canone")
    by (cbn; tauto).
  reflexivity.
Qed.

Lemma build_story_reads_fields_only_witness :
  build_story ∅ {[ "canone" := "450"; "note" := "urgent" ]} None build_styles 600
  = build_story ∅ {[ "canone" := "450" ]} None build_styles 600.
Proof.
  apply build_story_reads_fields_only.
  intros field Hin. cbn in Hin.
  repeat (destruct Hin as [<- | Hin]; [reflexivity |]). destruct Hin.
Defined.

(** X9.  A photo only puts its three blocks in front: with a usable image the
    story is the photo block followed by exactly the story of the same
    record without photo, and a path to no file gives the story without
    photo. *)
Theorem build_story_photo_prepends (fs : filesystem) (data : QuoteRecord)
    (styles : StyleSet) (H : Q) (path : string) :
  exists rest,
    build_story fs data None styles H = Ok rest
    /\ (fs !! path = None -> build_story fs data (Some path) styles H = Ok rest)
    /\ (forall wpx hpx,
          fs !! path = Some (RasterImage wpx hpx) -> (0 < wpx)%Z -> (0 < hpx)%Z ->
          exists w h,
            build_story fs data (Some path) styles H
            = Ok (outline_photo_block path w h ++ rest)).
Proof.
  eexists. split; [apply build_story_without_photo; now left |]. split.
  - intros Hp. apply build_story_without_photo. right. eauto.
  - intros wpx hpx Hp Hw Hh.
    destruct (restrictSize_total (inject_Z wpx) (inject_Z hpx) (10 * cm)
                (MAX_VEHICLE_RATIO * H)) as (w & h & Hr);
      [now apply inject_Z_pos | now apply inject_Z_pos |].
    exists w, h. now rewrite (build_story_with_photo _ _ _ _ _ _ _ _ _ Hp Hr).
Qed.

Lemma build_story_photo_prepends_witness :
  exists rest w h,
    build_story sample_assets sample_record None build_styles 600 = Ok rest
    /\ build_story sample_assets sample_record (Some "tmp/car.jpg") build_styles 600
       = Ok (outline_photo_block "tmp/car.jpg" w h ++ rest).
Proof.
  destruct (build_story_photo_prepends sample_assets sample_record build_styles 600
              "tmp/car.jpg") as (rest & H0 & _ & Hp).
  destruct (Hp 4000%Z 3000%Z) as (w & h & Hs); [reflexivity | lia | lia |].
  exists rest, w, h. split; assumption.
Defined.

(** ** The renderer *)

(** A photo that cannot be read stops the render once the geometry is
    computed. *)
Lemma generate_pdf_bytes_not_image (wrap : Flowable -> Q) (fs : filesystem)
    (data : QuoteRecord) (path header_path footer_path : string) (g : PageGeometry) :
  fs !! path = Some OtherFile ->
  page_geometry fs header_path footer_path = Ok g ->
  generate_pdf_bytes wrap fs data (Some path) header_path footer_path
  = Raise (OSError path).
Proof.
  intros Hp Hg. unfold generate_pdf_bytes. rewrite Hg.
  cbn [mbind result_bind]. now rewrite (build_story_not_image _ _ _ _ _ Hp).
Qed.

(** X10.  A photo path to an existing file that is not an image is not
    skipped like a missing file: when the brand images are readable the whole
    render raises the image reader's error and no page is produced, whatever
    the record and the measure of the blocks; with the same images and a path
    to no file the outcome is that of a render without photo. *)
Theorem generate_pdf_bytes_photo_file (wrap : Flowable -> Q) (fs : filesystem)
    (data : QuoteRecord) (path header_path footer_path : string) (g : PageGeometry) :
  page_geometry fs header_path footer_path = Ok g ->
  (fs !! path = Some OtherFile ->
   generate_pdf_bytes wrap fs data (Some path) header_path footer_path
   = Raise (OSError path))
  /\ (fs !! path = None ->
      generate_pdf_bytes wrap fs data (Some path) header_path footer_path
      = generate_pdf_bytes wrap fs data None header_path footer_path).
Proof.
  intros Hg. split.
  - intros Hp. now apply generate_pdf_bytes_not_image with (g := g).
  - intros Hp. unfold generate_pdf_bytes. rewrite Hg. cbn [mbind result_bind].
    rewrite !build_story_without_photo by eauto. reflexivity.
Qed.

Lemma generate_pdf_bytes_photo_file_witness :
  generate_pdf_bytes sample_wrap unreadable_photo_assets sample_record
    (Some "tmp/car.jpg") "assets/Heater.jpg" "assets/footer.jpg"
  = Raise (OSError "tmp/car.jpg").
Proof.
  refine (proj1 (generate_pdf_bytes_photo_file sample_wrap unreadable_photo_assets
                   sample_record "tmp/car.jpg" "assets/Heater.jpg" "assets/footer.jpg"
                   _ eq_refl) eq_refl).
Defined.

(** X11.  A render fails as a whole when a brand image cannot be read: the
    footer is tried first and its error is the one raised, then the header;
    no page is produced, whatever the record and the photo. *)
Theorem generate_pdf_bytes_asset_errors (wrap : Flowable -> Q) (fs : filesystem)
    (data : QuoteRecord) (photo : option string) (header_path footer_path : string) :
  (forall e, read_image_size fs footer_path = Raise e ->
             generate_pdf_bytes wrap fs data photo header_path footer_path = Raise e)
  /\ (forall size e,
        read_image_size fs footer_path = Ok size ->
        read_image_size fs header_path = Raise e ->
        generate_pdf_bytes wrap fs data photo header_path footer_path = Raise e).
Proof.
  split.
  - intros e He. unfold generate_pdf_bytes.
    now rewrite (page_geometry_footer_error _ header_path _ _ He).
  - intros size e Hs He. unfold generate_pdf_bytes.
    now rewrite (page_geometry_header_error _ _ _ _ _ Hs He).
Qed.

Lemma generate_pdf_bytes_asset_errors_witness :
  generate_pdf_bytes sample_wrap ∅ sample_record None "assets/Heater.jpg"
    "assets/footer.jpg"
  = Raise (OSError "assets/footer.jpg").
Proof.
  apply (proj1 (generate_pdf_bytes_asset_errors sample_wrap ∅ sample_record None
                  "assets/Heater.jpg" "assets/footer.jpg")).
  reflexivity.
Defined.

(** ** The [/generate] endpoint *)

Lemma setdefault_lookup (data : QuoteRecord) (key value k : string) :
  setdefault data key value !! k
  = match data !! k with
    | Some v => Some v
    | None => if decide (key = k) then Some value else None
    end.
Proof.
  unfold setdefault. destruct (data !! key) as [v |] eqn:Hkey.
  - destruct (data !! k) as [v' |] eqn:Hk; [reflexivity |].
    destruct (decide (key = k)) as [-> |]; [congruence | reflexivity].
  - rewrite lookup_insert. destruct (decide (key = k)) as [<- |].
    + now rewrite Hkey.
    + now destruct (data !! k).
Qed.

Lemma merge_parsed_lookup (data parsed : QuoteRecord) (k : string) :
  merge_parsed data parsed !! k
  = match data !! k with
    | Some v => Some v
    | None => parsed !! k
    end.
Proof.
  unfold merge_parsed. revert k.
  apply (map_fold_weak_ind
           (fun (r : QuoteRecord) (m : QuoteRecord) =>
              forall k, r !! k = match data !! k with
                                 | Some v => Some v
                                 | None => m !! k
                                 end)).
  - intros k. rewrite lookup_empty. now destruct (data !! k).
  - intros i x m r Hi IH k. rewrite setdefault_lookup, IH, lookup_insert.
    destruct (data !! k) as [v |]; [reflexivity |].
    destruct (decide (i = k)) as [<- |]; [now rewrite Hi | now destruct (m !! k)].
Qed.

Lemma fold_setdefault_lookup (l : list (string * string)) (data : QuoteRecord)
    (k : string) :
  fold_left (fun data '(k, v) => setdefault data k v) l data !! k
  = match data !! k with
    | Some v => Some v
    | None => first_value k l
    end.
Proof.
  revert data. induction l as [| [k' v] rest IH]; intros data; cbn [fold_left].
  - now destruct (data !! k).
  - rewrite IH, setdefault_lookup. cbn [first_value].
    destruct (data !! k) as [v' |]; [reflexivity |].
    now destruct (decide (k' = k)).
Qed.

Lemma first_value_DEFAULTS (k : string) :
  first_value k DEFAULTS = if decide (In k FIELDS) then Some "N.D." else None.
Proof.
  destruct (decide (In k FIELDS)) as [Hin | Hout].
  - cbn in Hin.
    repeat (destruct Hin as [<- | Hin]; [reflexivity |]). destruct Hin.
  - cbn [first_value DEFAULTS].
    repeat (destruct (decide (_ = k)) as [<- |];
            [exfalso; apply Hout; cbn; tauto |]).
    reflexivity.
Qed.

(** Where each key of the rendered record comes from. *)
Lemma request_data_lookup (json : QuoteRecord) (parsed : option QuoteRecord)
    (k : string) :
  request_data json parsed !! k
  = match json !! k with
    | Some v => Some v
    | None =>
        match from_option (fun p : QuoteRecord => p !! k) None parsed with
        | Some v => Some v
        | None => if decide (In k FIELDS) then Some "N.D." else None
        end
    end.
Proof.
  unfold request_data, apply_defaults.
  rewrite fold_setdefault_lookup, first_value_DEFAULTS.
  destruct parsed as [p |]; cbn [from_option].
  - rewrite merge_parsed_lookup. now destruct (json !! k).
  - now destruct (json !! k).
Qed.

Lemma request_data_field (json : QuoteRecord) (parsed : option QuoteRecord)
    (field : string) :
  In field FIELDS -> exists v, request_data json parsed !! field = Some v.
Proof.
  intros Hin. rewrite request_data_lookup.
  destruct (json !! field); [eauto |].
  destruct (from_option _ _ _); [eauto |].
  destruct (decide (In field FIELDS)); [eauto | contradiction].
Qed.

(** X12.  The record the endpoint renders takes each key from the JSON
    object when it is there, otherwise from the supplier file when it was
    parsed there, otherwise "N.D." for the thirteen fields: a key of the JSON
    object is never overwritten, and every field is present in the end. *)
Theorem request_data_precedence (json : QuoteRecord) (parsed : option QuoteRecord) :
  (forall k,
      request_data json parsed !! k
      = match json !! k with
        | Some v => Some v
        | None =>
            match from_option (fun p : QuoteRecord => p !! k) None parsed with
            | Some v => Some v
            | None => if decide (In k FIELDS) then Some "N.D." else None
            end
        end)
  /\ (forall field, In field FIELDS ->
         exists v, request_data json parsed !! field = Some v).
Proof.
  split.
  - apply request_data_lookup.
  - apply request_data_field.
Qed.

Lemma request_data_precedence_witness :
  exists v, request_data {[ "canone" := "450" ]} None !! "sede" = Some v.
Proof.
  apply (proj2 (request_data_precedence {[ "canone" := "450" ]} None)).
  cbn. tauto.
Defined.

Lemma replace_blanks_no_blank (s : string) :
  Forall (fun c => c <> " "%char) (list_ascii_of_string (replace_blanks s)).
Proof.
  induction s as [| c s IH]; cbn [replace_blanks list_ascii_of_string];
    constructor; [| exact IH].
  destruct (Ascii.eqb_spec c " "); [discriminate | assumption].
Qed.

Lemma replace_blanks_length (s : string) :
  String.length (replace_blanks s) = String.length s.
Proof. induction s as [| c s IH]; [reflexivity |]. cbn. now rewrite IH. Qed.

(** X13.  A download name that is asked for and not empty is used as it is.
    Otherwise the name is built from the model of the rendered record with
    every blank replaced by an underscore; as that record always has a
    model, the fallback word "Modello" is never used. *)
Theorem download_name_spec (today : string) (output_name : option string)
    (json : QuoteRecord) (parsed : option QuoteRecord) :
  let data := request_data json parsed in
  (forall name, output_name = Some name -> name <> "" ->
                download_name today output_name data = name)
  /\ (output_name = None \/ output_name = Some "" ->
      exists model,
        data !! "marca_modello" = Some model
        /\ download_name today output_name data
           = "Preventivo_Larini_" +:+ replace_blanks model +:+ "_" +:+ today +:+ ".pdf"
        /\ Forall (fun c => c <> " "%char)
                  (list_ascii_of_string (replace_blanks model))
        /\ String.length (replace_blanks model) = String.length model).
Proof.
  cbv zeta. split.
  - intros name -> Hname. unfold download_name.
    destruct name; [contradiction | reflexivity].
  - intros Hnone.
    destruct (request_data_field json parsed "marca_modello")
      as [model Hm]; [cbn; tauto |].
    exists model. split; [exact Hm |].
    split; [| split; [apply replace_blanks_no_blank | apply replace_blanks_length]].
    unfold download_name, dict_get. rewrite Hm.
    destruct Hnone as [-> | ->]; reflexivity.
Qed.

Lemma download_name_spec_witness :
  download_name "2024-05-01" (Some "offer.pdf") (request_data ∅ None) = "offer.pdf"
  /\ exists model,
       request_data {[ "marca_modello" := "Model X" ]} None !! "marca_modello"
       = Some model
       /\ download_name "2024-05-01" None
            (request_data {[ "marca_modello" := "Model X" ]} None)
          = "Preventivo_Larini_" +:+ replace_blanks model +:+ "_" +:+ "2024-05-01"
            +:+ ".pdf".
Proof.
  split.
  - apply (proj1 (download_name_spec "2024-05-01" (Some "offer.pdf") ∅ None));
      [reflexivity | discriminate].
  - destruct (proj2 (download_name_spec "2024-05-01" None
                       {[ "marca_modello" := "Model X" ]} None))
      as (model & Hm & Hn & _); [now left |].
    exists model. split; assumption.
Defined.
















(** A photo named like the path of the uploaded header is overwritten by it:
    the render then shows the header image in the photo's place. *)
Example generate_photo_overwritten_by_header :
  fst (generate (fun _ => Some ∅) None None "2024-05-01" sample_wrap sample_assets
         None (Some {| filename := "header_logo.png"; upload := RasterImage 800 600 |})
         None (Some {| filename := "logo.png"; upload := RasterImage 2000 300 |})
         None None) !! path_join "tmp" "header_logo.png"
  = Some (RasterImage 2000 300).
Proof. reflexivity. Qed.



(** ** Supplier file parser: text clean-up *)

Lemma append_cons (c : ascii) (s t : string) : String c s +:+ t = String c (s +:+ t).
Proof. reflexivity. Qed.

Lemma append_assoc (s t u : string) : (s +:+ t) +:+ u = s +:+ (t +:+ u).
Proof.
  induction s as [| c s IH]; [reflexivity |].
  rewrite !append_cons. now rewrite IH.
Qed.

Lemma length_append (s t : string) :
  String.length (s +:+ t) = (String.length s + String.length t)%nat.
Proof.
  induction s as [| c s IH]; [reflexivity |].
  rewrite append_cons. cbn [String.length]. now rewrite IH.
Qed.

Lemma all_chars_impl (p q : ascii -> bool) (s : string) :
  (forall c, p c = true -> q c = true) -> all_chars p s = true -> all_chars q s = true.
Proof.
  intros Hpq. induction s as [| c s IH]; [reflexivity |]. cbn [all_chars].
  rewrite !andb_true_iff. intros [Hc Hs]. split; auto.
Qed.









Lemma lstrip_fixed (s : string) : starts_with is_space s = false -> py_lstrip s = s.
Proof. destruct s as [| c s]; [reflexivity |]. cbn. now intros ->. Qed.






Lemma rstrip_fixed (s : string) : ends_with is_space s = false -> py_rstrip s = s.
Proof.
  induction s as [| c s IH]; [reflexivity |]. cbn [ends_with py_rstrip].
  destruct s as [| c' s'].
  - cbn [py_rstrip]. now intros ->.
  - intros He. now rewrite (IH He).
Qed.


Lemma strip_fixed (s : string) :
  starts_with is_space s = false -> ends_with is_space s = false -> py_strip s = s.
Proof.
  intros Hs He. unfold py_strip. rewrite (lstrip_fixed s Hs). now apply rstrip_fixed.
Qed.



(** ** Supplier file parser: patterns *)

Section MatcherSound.
Context {A : Type}.

Lemma star_loop_sound (r : regex) (m : string -> (string -> option A) -> option A) :
  sound_at (A := A) r m -> forall n, sound_at (A := A) (Star r) (star_loop m n).
Proof.
  intros Hm n. induction n as [| n IH]; intros s k a; cbn [star_loop].
  - intros Hk. exists EmptyString, s. repeat split; [constructor | exact Hk].
  - destruct (m s _) as [a' |] eqn:Hround.
    + intros [= <-]. apply Hm in Hround.
      destruct Hround as (w1 & s1 & -> & Hw1 & Hrest).
      destruct (String.length s1 <? String.length (w1 +:+ s1))%nat; [| discriminate].
      apply IH in Hrest. destruct Hrest as (w2 & s2 & -> & Hw2 & Hk).
      exists (w1 +:+ w2), s2. rewrite append_assoc.
      repeat split; [now constructor | exact Hk].
    + intros Hk. exists EmptyString, s. repeat split; [constructor | exact Hk].
Qed.
End MatcherSound.

(** Whatever the backtracking matcher finds is matched by the expression. *)
Lemma rmatch_sound {A : Type} (r : regex) : sound_at (A := A) r (rmatch r).
Proof.
  induction r as [c | p | r1 IH1 r2 IH2 | r1 IH1 r2 IH2 | r IH | r IH];
    intros s k a; cbn [rmatch].
  - destruct s as [| c' s']; [discriminate |].
    destruct (Ascii.eqb_spec (lower_ascii c') (lower_ascii c)); [| discriminate].
    intros Hk. exists (String c' EmptyString), s'. repeat split; [now constructor | exact Hk].
  - destruct s as [| c' s']; [discriminate |].
    destruct (p c') eqn:Hp; [| discriminate].
    intros Hk. exists (String c' EmptyString), s'. repeat split; [now constructor | exact Hk].
  - intros H1. apply IH1 in H1. destruct H1 as (w1 & s1 & -> & Hw1 & H2).
    apply IH2 in H2. destruct H2 as (w2 & s2 & -> & Hw2 & Hk).
    exists (w1 +:+ w2), s2. rewrite append_assoc.
    repeat split; [now constructor | exact Hk].
  - destruct (rmatch r1 s k) as [a' |] eqn:H1.
    + intros [= <-]. apply IH1 in H1. destruct H1 as (w & s' & -> & Hw & Hk).
      exists w, s'. repeat split; [now apply matches_Alt_l | exact Hk].
    + intros H2. apply IH2 in H2. destruct H2 as (w & s' & -> & Hw & Hk).
      exists w, s'. repeat split; [now apply matches_Alt_r | exact Hk].
  - destruct (rmatch r s k) as [a' |] eqn:H1.
    + intros [= <-]. apply IH in H1. destruct H1 as (w & s' & -> & Hw & Hk).
      exists w, s'. repeat split; [now apply matches_Opt_some | exact Hk].
    + intros Hk. exists EmptyString, s. repeat split; [constructor | exact Hk].
  - apply star_loop_sound. exact IH.
Qed.

Lemma take_string_append (w s : string) :
  take_string (String.length (w +:+ s) - String.length s) (w +:+ s) = w.
Proof.
  rewrite length_append.
  replace (String.length w + String.length s - String.length s)%nat
    with (String.length w) by lia.
  induction w as [| c w IH]; [now destruct s |].
  rewrite append_cons. cbn [String.length take_string]. now rewrite IH.
Qed.

Lemma re_match_sound (pat : pattern) (s g : string) :
  re_match pat s = Some g ->
  exists w rest,
    s = w +:+ g +:+ rest /\ matches (before_group pat) w /\ matches (group pat) g.
Proof.
  unfold re_match. intros H. apply rmatch_sound in H.
  destruct H as (w & s1 & -> & Hw & H). apply rmatch_sound in H.
  destruct H as (g' & s2 & -> & Hg & [= <-]).
  rewrite take_string_append. exists w, s2. repeat split; assumption.
Qed.

(** What [re.search] returns is found in the text behind its label. *)
Lemma re_search_sound (pat : pattern) (s g : string) :
  re_search pat s = Some g ->
  exists skipped w rest,
    s = skipped +:+ w +:+ g +:+ rest
    /\ matches (before_group pat) w /\ matches (group pat) g.
Proof.
  induction s as [| c s IH]; cbn [re_search].
  - destruct (re_match pat EmptyString) as [g' |] eqn:Hm; [| discriminate].
    intros [= <-]. apply re_match_sound in Hm.
    destruct Hm as (w & rest & Hs & Hw & Hg). exists EmptyString, w, rest. auto.
  - destruct (re_match pat (String c s)) as [g' |] eqn:Hm.
    + intros [= <-]. apply re_match_sound in Hm.
      destruct Hm as (w & rest & Hs & Hw & Hg). exists EmptyString, w, rest. auto.
    + intros H. apply IH in H. destruct H as (skipped & w & rest & -> & Hw & Hg).
      exists (String c skipped), w, rest. auto.
Qed.

Ltac ascii_cases c :=
  destruct c as [[] [] [] [] [] [] [] []]; vm_compute; intros; congruence.

Lemma amount_not_space (c : ascii) : amount c = true -> is_space c = false.
Proof. ascii_cases c. Qed.






Lemma all_chars_app (p : ascii -> bool) (s t : string) :
  all_chars p (s +:+ t) = all_chars p s && all_chars p t.
Proof.
  induction s as [| c s IH]; [reflexivity |].
  rewrite append_cons. cbn [all_chars]. now rewrite IH, andb_assoc.
Qed.

Lemma no_space_strip_fixed (s : string) :
  all_chars (fun c => negb (is_space c)) s = true -> py_strip s = s.
Proof.
  intros Hs. apply strip_fixed.
  - destruct s as [| c s]; [reflexivity |]. cbn in *.
    apply andb_true_iff in Hs. destruct Hs as [Hc _]. now apply negb_true_iff in Hc.
  - induction s as [| c s IH]; [reflexivity |].
    cbn [all_chars] in Hs. apply andb_true_iff in Hs. destruct Hs as [Hc Hs].
    cbn [ends_with]. destruct s; [now apply negb_true_iff in Hc | now apply IH].
Qed.


Lemma matches_Star_Class (p : ascii -> bool) (w : string) :
  matches (Star (Class p)) w -> all_chars p w = true.
Proof.
  intros H. remember (Star (Class p)) as r eqn:Hr.
  induction H as [| | | | | | | r' | r' w1 w2 H1 _ H2 IH2]; try discriminate.
  - reflexivity.
  - injection Hr as ->. rewrite all_chars_app, (IH2 eq_refl), andb_true_r.
    inversion H1; subst. cbn. now rewrite andb_true_r.
Qed.

Lemma matches_Plus_Class (p : ascii -> bool) (w : string) :
  matches (Plus (Class p)) w -> w <> "" /\ all_chars p w = true.
Proof.
  unfold Plus. intros H. inversion H as [| | r1 r2 w1 w2 H1 H2 | | | | | |]; subst.
  inversion H1; subst. apply matches_Star_Class in H2.
  change (String c "" +:+ w2) with (String c w2).
  split; [discriminate |]. cbn [all_chars]. now rewrite H2, andb_true_r.
Qed.


Lemma py_lower_app (s t : string) : py_lower (s +:+ t) = py_lower s +:+ py_lower t.
Proof.
  induction s as [| c s IH]; [reflexivity |].
  rewrite append_cons. cbn [py_lower]. now rewrite IH.
Qed.


(** How the loop over [pats] fills the record. *)
Lemma parse_loop_lookup (text : string) (l : list (string * pattern))
    (init : QuoteRecord) (k v : string) :
  fold_left
    (fun (data : QuoteRecord) '(k, pat) =>
       match re_search pat text with
       | Some g => <[ k := py_strip g ]> data
       | None => data
       end) l init !! k = Some v ->
  (exists pat g, In (k, pat) l /\ re_search pat text = Some g /\ v = py_strip g)
  \/ init !! k = Some v.
Proof.
  revert init. induction l as [| [k' pat] rest IH]; intros init; cbn [fold_left].
  - now right.
  - intros H. apply IH in H. destruct H as [(pat' & g & Hin & Hs & Hv) | H].
    + left. exists pat', g. repeat split; [now right | assumption ..].
    + destruct (re_search pat text) as [g |] eqn:Hs; [| now right].
      rewrite lookup_insert in H. destruct (decide (k' = k)) as [-> | Hne].
      * injection H as <-. left. exists pat, g. repeat split; [now left | assumption].
      * now right.
Qed.

Lemma parse_supplier_text_lookup (text k v : string) :
  parse_supplier_text text !! k = Some v ->
  exists pat g skipped w rest,
    In (k, pat) pats
    /\ clean_text text = skipped +:+ w +:+ g +:+ rest
    /\ matches (before_group pat) w
    /\ matches (group pat) g
    /\ v = py_strip g.
Proof.
  unfold parse_supplier_text. intros H. apply parse_loop_lookup in H.
  destruct H as [(pat & g & Hin & Hs & Hv) | H]; [| now rewrite lookup_empty in H].
  apply re_search_sound in Hs. destruct Hs as (skipped & w & rest & Ht & Hw & Hg).
  exists pat, g, skipped, w, rest. auto.
Qed.





Lemma shape_without_space (p : ascii -> bool) (g : string) :
  (forall c, p c = true -> is_space c = false) ->
  all_chars p g = true -> py_strip g = g.
Proof.
  intros Hp Hg. apply no_space_strip_fixed.
  eapply all_chars_impl; [| exact Hg]. intros c Hc. now rewrite (Hp c Hc).
Qed.





(** The fee pattern, on its own. *)
Lemma parsed_values_shape_amount (text v : string) :
  parse_supplier_text text !! "canone" = Some v ->
  v <> "" /\ all_chars amount v = true.
Proof.
  intros H. apply parse_supplier_text_lookup in H.
  destruct H as (pat & g & _ & _ & _ & Hin & _ & _ & Hg & ->).
  cbn [pats In] in Hin.
  do 12 (destruct Hin as [E | Hin]; [discriminate E |]).
  destruct Hin as [[= <-] | []].
  cbn [group labelled] in Hg.
  apply matches_Plus_Class in Hg. destruct Hg as [Hne Hg].
  now rewrite (shape_without_space amount _ amount_not_space Hg).
Qed.



Lemma amount_not_n (c : ascii) : amount c = true -> lower_ascii c <> "n"%char.
Proof. ascii_cases c. Qed.

Lemma amount_shows_price (v : string) :
  v <> "" -> all_chars amount v = true ->
  py_bool v && negb (startswith (py_lower v) "n.d") = true.
Proof.
  intros Hne Hall. destruct v as [| c v]; [contradiction |].
  cbn [py_bool andb all_chars] in *. apply andb_true_iff in Hall.
  destruct Hall as [Hc _]. apply negb_true_iff.
  unfold startswith. destruct (String.prefix "n.d" (py_lower (String c v))) eqn:Hp;
    [| reflexivity].
  apply String.prefix_correct in Hp. cbn in Hp. injection Hp as Hp _.
  now apply amount_not_n in Hc.
Qed.

(** X21.  A fee found in the supplier file is always printed as the price,
    unless the JSON object sets the fee itself: the merged record passes the
    renderer's test, and the story holds the price line with the fee as it
    was found. *)
Theorem supplier_fee_is_printed (text : string) (json : QuoteRecord) (v : string)
    (fs : filesystem) (photo : option string) (H : Q) (story : list Flowable) :
  json !! "canone" = None ->
  parse_supplier_text text !! "canone" = Some v ->
  let data := request_data json (Some (parse_supplier_text text)) in
  build_story fs data photo build_styles H = Ok story ->
  shows_price data = true
  /\ In (Paragraph (v +:+ " euro + IVA al mese") (price build_styles)) story.
Proof.
  intros Hjson Hparsed data Hs.
  assert (Hfee : data !! "canone" = Some v).
  { unfold data. rewrite request_data_lookup, Hjson.
    cbn [from_option]. now rewrite Hparsed. }
  destruct (parsed_values_shape_amount text v Hparsed) as [Hne Hall].
  assert (Hshow : shows_price data = true).
  { unfold shows_price, dict_get. rewrite Hfee. now apply amount_shows_price. }
  split; [exact Hshow |].
  destruct (build_story_inv _ _ _ _ _ _ Hs) as (pb & -> & _).
  rewrite Hshow. unfold outline, outline_price_block, outline_price_callout, dict_get.
  rewrite Hfee. apply in_or_app. right. in_sections.
Qed.

Lemma supplier_fee_is_printed_witness :
  exists story,
    build_story ∅
      (request_data ∅ (Some (parse_supplier_text "Canone mensile: 450,00 euro")))
      None build_styles 600
    = Ok story
    /\ In (Paragraph ("450,00" +:+ " euro + IVA al mese") (price build_styles)) story.
Proof.
  pose proof (build_story_without_photo ∅
                (request_data ∅
                   (Some (parse_supplier_text "Canone mensile: 450,00 euro")))
                None build_styles 600 (or_introl eq_refl)) as Hs.
  eexists. split; [exact Hs |].
  refine (proj2 (supplier_fee_is_printed "Canone mensile: 450,00 euro" ∅ "450,00"
                   ∅ None 600 _ _ _ Hs)).
  - reflexivity.
  - vm_compute. reflexivity.
Defined.

(** ** Supplier file parser: reading *)

Lemma parse_supplier_text_empty : parse_supplier_text "" = ∅.
Proof. vm_compute. reflexivity. Qed.

(** X22.  The parser gives the empty record, and raises nothing, when the
    suffix of the file is none of ".pdf", ".docx", ".doc" in any casing, when
    no reader is installed, and when the PDF reader cannot open the file.  Of
    a PDF only the first five pages count. *)
Theorem parse_supplier_file_reads
    (pdfplumber : option (filesystem -> string -> option (list page_text)))
    (docx : option (filesystem -> string -> option (list string)))
    (fs : filesystem) (path : string) :
  (py_lower (path_suffix path) <> ".pdf" ->
   py_lower (path_suffix path) <> ".docx" ->
   py_lower (path_suffix path) <> ".doc" ->
   parse_supplier_file pdfplumber docx fs path = ∅)
  /\ parse_supplier_file None None fs path = ∅
  /\ (forall pdf_open,
        py_lower (path_suffix path) = ".pdf" -> pdf_open fs path = None ->
        parse_supplier_file (Some pdf_open) docx fs path = ∅)
  /\ (forall pdf_open,
        parse_supplier_file (Some pdf_open) docx fs path
        = parse_supplier_file
            (Some (fun fs path => option_map (firstn 5) (pdf_open fs path)))
            docx fs path).
Proof.
  unfold parse_supplier_file. repeat split.
  - intros Hpdf Hdocx Hdoc.
    destruct (String.eqb_spec (py_lower (path_suffix path)) ".pdf");
      [contradiction |].
    destruct (String.eqb_spec (py_lower (path_suffix path)) ".docx");
      [contradiction |].
    destruct (String.eqb_spec (py_lower (path_suffix path)) ".doc");
      [contradiction |].
    apply parse_supplier_text_empty.
  - destruct (String.eqb _ ".pdf"), (String.eqb _ ".docx" || String.eqb _ ".doc");
      apply parse_supplier_text_empty.
  - intros pdf_open -> Hopen. cbn [String.eqb Ascii.eqb Bool.eqb]. rewrite Hopen.
    apply parse_supplier_text_empty.
  - intros pdf_open. destruct (String.eqb _ ".pdf"); [| reflexivity].
    destruct (pdf_open fs path) as [pages |]; cbn [option_map]; [| reflexivity].
    now rewrite List.firstn_firstn.
Qed.

Lemma parse_supplier_file_reads_witness :
  parse_supplier_file None None ∅ "tmp/offer.txt" = ∅.
Proof.
  apply (proj1 (parse_supplier_file_reads None None ∅ "tmp/offer.txt"));
    vm_compute; discriminate.
Defined.
